(** * Configuration validation of the Nornir automation service

    Shallow embedding of
    - [ConfigValidator.get_device_config], [load_source_of_truth_config],
      [compare_configurations] and [validate_configurations]
      (tasks/config_validation.py),
    - the summary parts of the four report encoders
      (tasks/report_generator.py),
    - [save_source_of_truth_config], [_save_validation_results] and
      [get_validation_history] (tasks/config_validation.py) and
      [save_source_of_truth] (scripts/validate_configs.py),
    - [generate_validation_report] and [get_report]
      (tasks/report_generator.py),
    - [InventoryManager.get_inventory], [_save_hosts_inventory],
      [add_device], [remove_device], [get_device_groups],
      [get_devices_by_group] and [_map_manufacturer_to_driver]
      (tasks/inventory_manager.py).

    Python strings are modelled as Rocq [string]s over ASCII; Python sets
    of lines as [gset string]; a Python exception raised inside a [try]
    block as the [inl] branch of [exc A], carrying [str(e)]. *)

From stdpp Require Import base gmap strings list pretty sorting.
From Stdlib Require Import Ascii String QArith Lqa.

Local Open Scope string_scope.

(* ------------------------------------------------------------------ *)
(** ** Python string primitives *)

(** [str.isspace] on one ASCII character: \t \n \v \f \r, the
    separators \x1c..\x1f and the space. *)
Definition py_isspace (c : ascii) : bool :=
  let n := Ascii.nat_of_ascii c in
  (((9 <=? n) && (n <=? 13)) || ((28 <=? n) && (n <=? 32)))%nat.

Fixpoint lstrip_chars (l : list ascii) : list ascii :=
  match l with
  | [] => []
  | c :: l' => if py_isspace c then lstrip_chars l' else l
  end.

(** [str.strip()]: drop leading and trailing whitespace. *)
Definition py_strip (s : string) : string :=
  string_of_list_ascii
    (rev (lstrip_chars (rev (lstrip_chars (list_ascii_of_string s))))).

(** [str.split(sep)] for a one-character separator; like Python,
    [("").split(sep) = [""]]. *)
Fixpoint py_split (sep : ascii) (s : string) : list string :=
  match s with
  | EmptyString => [EmptyString]
  | String c s' =>
      let rest := py_split sep s' in
      if Ascii.eqb c sep then EmptyString :: rest
      else match rest with
           | r :: rs => String c r :: rs
           | [] => [String c EmptyString]
           end
  end.

Definition nl : ascii := Ascii.ascii_of_nat 10.
Definition cr : ascii := Ascii.ascii_of_nat 13.

(** [set(text.strip().split('\n'))] *)
Definition line_set (text : string) : gset string :=
  list_to_set (py_split nl (py_strip text)).

(** Truthiness of [Optional[str]]: [None] and [""] are falsy. *)
Definition py_truthy_opt_str (o : option string) : bool :=
  match o with
  | None => false
  | Some s => negb (String.eqb s "")
  end.

(* ------------------------------------------------------------------ *)
(** ** Values, exceptions, results *)

(** A value stored in NAPALM's config getter dict: a string, or a
    non-string such as [None] (on which [.strip()] raises). *)
Inductive pyval :=
  | PStr (s : string)
  | PNone.

(** A computation that may raise; [inl msg] is an exception with
    [str(e) = msg]. *)
Abbreviation exc A := (string + A)%type.

Definition py_raise {A} (msg : string) : exc A := inl msg.

Definition str_method_strip (v : pyval) : exc string :=
  match v with
  | PStr s => inr (py_strip s)
  | PNone => py_raise "'NoneType' object has no attribute 'strip'"
  end.

(** A [ValidationResult] dict as [compare_configurations] and
    [validate_configurations] build it. Keys absent from a dict are
    [None]. [list(set)] has an unspecified order, so the line lists are
    kept as sets. *)
Record validation_result := {
  vr_device : string;
  vr_status : string;
  vr_message : option string;
  vr_drift_detected : bool;
  vr_issues : list string;
  vr_missing_lines : option (gset string);
  vr_extra_lines : option (gset string);
  vr_timestamp : option string
}.

(* ------------------------------------------------------------------ *)
(** ** The world the validator reads *)

(** Outcome of [self.nr.filter(name=...).run(task=napalm_get,
    getters=["config"])] for one device: the task failed
    ([result.failed]), something raised (unknown host, missing key), or
    the getter returned its ["config"] dict. *)
Inductive napalm_outcome :=
  | NapalmFailed
  | NapalmRaised (msg : string)
  | NapalmOk (config_data : gmap string pyval).

(** A file of a directory the code reads in text mode: readable, with
    the text that [open(path, 'r').read()] (or [Path.read_text()])
    returns, or present but raising on [open]/[read]. *)
Inductive file_entry :=
  | Readable (text : string)
  | Unreadable.

Record world := {
  w_gateway : string -> napalm_outcome;
  w_config_dir : gmap string file_entry;
  w_now : string   (* datetime.now().isoformat() *)
}.

(* ------------------------------------------------------------------ *)
(** ** ConfigValidator *)

Definition dict_get (d : gmap string pyval) (k : string) (dflt : pyval) : pyval :=
  match d !! k with Some v => v | None => dflt end.

(** [get_device_config]: every failure becomes the empty dict [{}]. *)
Definition get_device_config (w : world) (device_name : string)
  : gmap string pyval :=
  match w_gateway w device_name with
  | NapalmFailed => ∅
  | NapalmRaised _ => ∅
  | NapalmOk config_data =>
      <["running" := dict_get config_data "running" (PStr "")]>
      (<["startup" := dict_get config_data "startup" (PStr "")]>
      {["candidate" := dict_get config_data "candidate" (PStr "")]})
  end.

Definition sot_file_name (device_name config_type : string) : string :=
  device_name +:+ "_" +:+ config_type +:+ ".txt".

(** [load_source_of_truth_config]: [None] when the file is missing or
    reading it raises. *)
Definition load_source_of_truth_config (w : world)
  (device_name config_type : string) : option string :=
  match w_config_dir w !! sot_file_name device_name config_type with
  | Some (Readable text) => Some text
  | Some Unreadable => None
  | None => None
  end.

Definition no_sot_result (device_name : string) : validation_result := {|
  vr_device := device_name;
  vr_status := "error";
  vr_message := Some "No source of truth configuration found";
  vr_drift_detected := false;
  vr_issues := [];
  vr_missing_lines := None;
  vr_extra_lines := None;
  vr_timestamp := None
|}.

Definition missing_issue (n : nat) : string :=
  "Missing " +:+ pretty n +:+ " lines from source of truth".

Definition extra_issue (n : nat) : string :=
  "Extra " +:+ pretty n +:+ " lines not in source of truth".

(** The body of the [try] in [compare_configurations]. *)
Definition compare_body (w : world) (device_name config_type : string)
  : exc validation_result :=
  let live_configs := get_device_config w device_name in
  let live_config := dict_get live_configs config_type (PStr "") in
  let sot_config := load_source_of_truth_config w device_name config_type in
  if negb (py_truthy_opt_str sot_config) then inr (no_sot_result device_name)
  else
    match str_method_strip live_config with
    | inl e => inl e
    | inr live_stripped =>
      let sot := default "" sot_config in
      let live_lines : gset string := list_to_set (py_split nl live_stripped) in
      let sot_lines := line_set sot in
      let missing_in_live := sot_lines ∖ live_lines in
      let extra_in_live := live_lines ∖ sot_lines in
      let drift_detected :=
        ((0 <? size missing_in_live) || (0 <? size extra_in_live))%nat in
      let issues :=
        ((if (0 <? size missing_in_live)%nat
          then [missing_issue (size missing_in_live)] else []) ++
         (if (0 <? size extra_in_live)%nat
          then [extra_issue (size extra_in_live)] else []))%list in
      inr {|
        vr_device := device_name;
        vr_status := "success";
        vr_message := None;
        vr_drift_detected := drift_detected;
        vr_issues := issues;
        vr_missing_lines := Some missing_in_live;
        vr_extra_lines := Some extra_in_live;
        vr_timestamp := Some (w_now w)
      |}
    end.

(** The [except Exception as e] handler of [compare_configurations]. *)
Definition comparison_error (device_name msg : string) : validation_result := {|
  vr_device := device_name;
  vr_status := "error";
  vr_message := Some msg;
  vr_drift_detected := false;
  vr_issues := ["Comparison error: " +:+ msg];
  vr_missing_lines := None;
  vr_extra_lines := None;
  vr_timestamp := None
|}.

Definition compare_configurations (w : world) (device_name config_type : string)
  : validation_result :=
  match compare_body w device_name config_type with
  | inl e => comparison_error device_name e
  | inr r => r
  end.

(** A Nornir inventory host: its name, its direct groups, and
    [host.get(k)]: the value of key [k] in the host's data, else in its
    groups' data (parents included), else in the defaults' data. It is
    [Some v] when that value is the string [v], and [None] when no layer
    has the key or the value is not a string, which never equals a group
    name. *)
Record inventory_host := {
  h_name : string;
  h_groups : list string;
  h_get : string -> option string
}.

(** Device selection: ["all"] keeps every host (iterating
    [self.nr.inventory.hosts]); otherwise
    [self.nr.filter(groups__contains=device_group)]. Called with keyword
    arguments and no filter function, Nornir's [Inventory.filter] keeps
    the hosts [h] with [h.get(k) == v] for each keyword [k=v]: the key
    tested is the literal ["groups__contains"] (the [__contains] operator
    belongs to Nornir's [F] objects only), and [h_groups] is not read.
    Order is the inventory's. *)
Definition select_devices (device_group : string) (hosts : list inventory_host)
  : list inventory_host :=
  if String.eqb device_group "all" then hosts
  else List.filter (fun h => match h_get h "groups__contains" with
                             | Some v => String.eqb v device_group
                             | None => false
                             end) hosts.

(** Resolution of the config-type set. *)
Definition config_types_of (config_type : string) : list string :=
  if String.eqb config_type "all" then ["running"; "startup"] else [config_type].

(** The [except] handler of [validate_configurations]. *)
Definition validation_error (msg : string) : validation_result := {|
  vr_device := "unknown";
  vr_status := "error";
  vr_message := Some msg;
  vr_drift_detected := false;
  vr_issues := ["Validation error: " +:+ msg];
  vr_missing_lines := None;
  vr_extra_lines := None;
  vr_timestamp := None
|}.

(** The two nested [for] loops, appending to [results]. *)
Fixpoint validate_loop (w : world) (config_type : string)
  (devices : list inventory_host) (results : list validation_result)
  : list validation_result :=
  match devices with
  | [] => results
  | d :: ds =>
      let results' :=
        fold_left (fun acc cfg_type =>
                     (acc ++ [compare_configurations w (h_name d) cfg_type])%list)
                  (config_types_of config_type) results in
      validate_loop w config_type ds results'
  end.

(** [validate_configurations]. [hosts] is the inventory lookup, which
    may raise ([inl msg]). [_save_validation_results] writes a file in a
    [try] that swallows its own errors and does not change [results]; it
    is not modelled. [dry_run] is unused by the source. *)
Definition validate_configurations (w : world) (hosts : exc (list inventory_host))
  (device_group config_type : string) (dry_run : bool)
  : list validation_result :=
  match hosts with
  | inl e => [validation_error e]
  | inr hs => validate_loop w config_type (select_devices device_group hs) []
  end.

(* ------------------------------------------------------------------ *)
(** ** ReportGenerator: the aggregate fields of each encoding *)

Definition count_drift (results : list validation_result) : nat :=
  List.length (List.filter (fun r => vr_drift_detected r) results).

Definition count_status (st : string) (results : list validation_result) : nat :=
  List.length (List.filter (fun r => String.eqb (vr_status r) st) results).

(** A value shown in a report summary. *)
Inductive field_value :=
  | FNat (n : nat)
  | FStr (s : string)
  | FRate (q : Q).

(** ["report_metadata"] of [_generate_json_report]. *)
Definition json_report_metadata (now : string) (results : list validation_result)
  : list (string * field_value) :=
  [("generated_at", FStr now);
   ("total_devices", FNat (List.length results));
   ("devices_with_drift", FNat (count_drift results));
   ("devices_with_errors", FNat (count_status "error" results))].

Definition py_bool_str (b : bool) : string := if b then "True" else "False".

Definition csv_header : list string :=
  ["Device"; "Status"; "Drift Detected"; "Issues Count"; "Issues"; "Timestamp"].

Definition csv_row (r : validation_result) : list string :=
  [vr_device r; vr_status r; py_bool_str (vr_drift_detected r);
   pretty (List.length (vr_issues r)); concat "; " (vr_issues r);
   default "" (vr_timestamp r)].

(** The rows [_generate_csv_report] writes: the header, then one row
    per result. *)
Definition csv_report (results : list validation_result) : list (list string) :=
  csv_header :: map csv_row results.

(** The "Summary" sheet of [_generate_xlsx_report]. *)
Definition xlsx_summary (now : string) (results : list validation_result)
  : list (string * field_value) :=
  [("Report Generated", FStr now);
   ("Total Devices", FNat (List.length results));
   ("Devices with Drift", FNat (count_drift results));
   ("Devices with Errors", FNat (count_status "error" results));
   ("Success Rate",
     FStr (pretty (count_status "success" results) +:+ "/" +:+
           pretty (List.length results)))].

(** [success_rate] of [_generate_html_report] (a Python float, here the
    exact rational; the [:.1f] rounding of the display is not modelled). *)
Definition html_success_rate (results : list validation_result) : Q :=
  let total_devices := List.length results in
  let devices_with_errors := count_status "error" results in
  if (0 <? total_devices)%nat
  then ((inject_Z (Z.of_nat total_devices) - inject_Z (Z.of_nat devices_with_errors))
        / inject_Z (Z.of_nat total_devices) * 100)%Q
  else 0%Q.

(** The summary tiles of [_generate_html_report]. *)
Definition html_summary (results : list validation_result)
  : list (string * field_value) :=
  [("Total Devices", FNat (List.length results));
   ("Errors", FNat (count_status "error" results));
   ("Drift Detected", FNat (count_drift results));
   ("Success Rate", FRate (html_success_rate results))].

(* ------------------------------------------------------------------ *)
(** ** InventoryManager: manufacturer to NAPALM driver *)

(** The [mapping] dict, in insertion (iteration) order. *)
Definition manufacturer_mapping : list (string * string) :=
  [("cisco", "ios"); ("juniper", "junos"); ("arista", "eos");
   ("hp", "procurve"); ("huawei", "vrp"); ("fortinet", "fortios");
   ("palo alto", "panos"); ("mikrotik", "ros"); ("f5", "f5");
   ("nxos", "nxos"); ("iosxr", "iosxr")].

(** [str.lower()] on ASCII. *)
Definition ascii_lower (c : ascii) : ascii :=
  let n := Ascii.nat_of_ascii c in
  if ((65 <=? n) && (n <=? 90))%nat then Ascii.ascii_of_nat (n + 32) else c.

Fixpoint py_lower (s : string) : string :=
  match s with
  | EmptyString => EmptyString
  | String c s' => String (ascii_lower c) (py_lower s')
  end.

(** [needle in hay] for strings. *)
Fixpoint py_contains (needle hay : string) : bool :=
  String.prefix needle hay ||
  match hay with
  | EmptyString => false
  | String _ hay' => py_contains needle hay'
  end.

Fixpoint first_matching_driver (m : string) (tbl : list (string * string))
  : option string :=
  match tbl with
  | [] => None
  | (key, driver) :: tbl' =>
      if py_contains key m then Some driver else first_matching_driver m tbl'
  end.

(** [_map_manufacturer_to_driver] *)
Definition map_manufacturer_to_driver (manufacturer : string) : string :=
  let manufacturer_lower := py_lower manufacturer in
  match first_matching_driver manufacturer_lower manufacturer_mapping with
  | Some driver => driver
  | None => "ios"
  end.

(* ------------------------------------------------------------------ *)
(** ** Concrete inputs *)

(** ["\n".join(lines)] *)
Definition join_lines (lines : list string) : string :=
  concat (String nl EmptyString) lines.

(** Did the Device Gateway fetch fail ([get_device_config] returns [{}])? *)
Definition gateway_fetch_fails (o : napalm_outcome) : bool :=
  match o with
  | NapalmOk _ => false
  | _ => true
  end.

(** A world in which every device answers the same way. *)
Definition world_of (gw : napalm_outcome) (files : gmap string file_entry) : world := {|
  w_gateway := fun _ => gw;
  w_config_dir := files;
  w_now := "2026-01-01T00:00:00"
|}.

(** Device ["r1"] with running config [live] and saved baseline [sot]. *)
Definition r1_world (sot live : string) : world :=
  world_of (NapalmOk {["running" := PStr live]})
           {["r1_running.txt" := Readable sot]}.

(* ------------------------------------------------------------------ *)
(** ** Writing baselines *)

(** The universal-newlines decoding of a text-mode read ([newline=None]):
    "\r\n" and a lone "\r" are read as "\n". *)
Fixpoint universal_newlines (s : string) : string :=
  match s with
  | EmptyString => EmptyString
  | String c s' =>
      if Ascii.eqb c cr then
        match s' with
        | String c' s'' =>
            if Ascii.eqb c' nl then String nl (universal_newlines s'')
            else String nl (universal_newlines s')
        | EmptyString => String nl EmptyString
        end
      else String c (universal_newlines s')
  end.

(** [open(path, 'w')] (with or without [newline='']) followed by a write
    of [text]: on POSIX the file then holds [text] unchanged, and a later
    text-mode read returns [universal_newlines text]; or opening/writing
    raises (here when [can_write path] is false) and the directory is
    unchanged. *)
Definition write_file (can_write : string -> bool) (path text : string)
  (dir : gmap string file_entry) : exc (gmap string file_entry) :=
  if can_write path then inr (<[path := Readable (universal_newlines text)]> dir)
  else py_raise ("[Errno 13] Permission denied: '" +:+ path +:+ "'").

Definition with_config_dir (w : world) (dir : gmap string file_entry) : world := {|
  w_gateway := w_gateway w;
  w_config_dir := dir;
  w_now := w_now w
|}.

Definition metadata_file_name (device_name config_type : string) : string :=
  device_name +:+ "_" +:+ config_type +:+ "_metadata.json".

Definition hex_digit (n : nat) : ascii :=
  if (n <? 10)%nat then Ascii.ascii_of_nat (48 + n) else Ascii.ascii_of_nat (87 + n).

(** One character as [json.dump] (with [ensure_ascii]) writes it inside
    a string literal: everything outside space..tilde is escaped. *)
Definition json_escape_char (c : ascii) : string :=
  let n := Ascii.nat_of_ascii c in
  if (n =? 34)%nat then String "\" (String (Ascii.ascii_of_nat 34) EmptyString)
  else if (n =? 92)%nat then String "\" (String "\" EmptyString)
  else if (n =? 10)%nat then String "\" (String "n" EmptyString)
  else if (n =? 13)%nat then String "\" (String "r" EmptyString)
  else if (n =? 9)%nat then String "\" (String "t" EmptyString)
  else if (n =? 8)%nat then String "\" (String "b" EmptyString)
  else if (n =? 12)%nat then String "\" (String "f" EmptyString)
  else if ((n <? 32) || (126 <? n))%nat then
    "\u00" +:+ String (hex_digit (n / 16)) (String (hex_digit (n mod 16)) EmptyString)
  else String c EmptyString.

Fixpoint json_escape (s : string) : string :=
  match s with
  | EmptyString => EmptyString
  | String c s' => json_escape_char c +:+ json_escape s'
  end.

Definition json_str (s : string) : string :=
  String (Ascii.ascii_of_nat 34) (json_escape s +:+ String (Ascii.ascii_of_nat 34) EmptyString).

(** [json.dump(metadata, f, indent=2)] for the metadata dict of
    [save_source_of_truth_config]. *)
Definition metadata_json (device_name config_type timestamp : string) : string :=
  "{" +:+ String nl EmptyString +:+
  "  " +:+ json_str "device" +:+ ": " +:+ json_str device_name +:+ "," +:+ String nl EmptyString +:+
  "  " +:+ json_str "config_type" +:+ ": " +:+ json_str config_type +:+ "," +:+ String nl EmptyString +:+
  "  " +:+ json_str "timestamp" +:+ ": " +:+ json_str timestamp +:+ "," +:+ String nl EmptyString +:+
  "  " +:+ json_str "source" +:+ ": " +:+ json_str "manual" +:+ String nl EmptyString +:+
  "}".

(** [save_source_of_truth_config]: the baseline file, then the metadata
    file; the returned world is the one after the writes that happened.
    A failure of the second write leaves the first in place. *)
Definition save_source_of_truth_config (can_write : string -> bool) (w : world)
  (device_name config config_type : string) : bool * world :=
  let config_file := sot_file_name device_name config_type in
  match write_file can_write config_file config (w_config_dir w) with
  | inl _ => (false, w)
  | inr dir1 =>
      let metadata_file := metadata_file_name device_name config_type in
      match write_file can_write metadata_file
              (metadata_json device_name config_type (w_now w)) dir1 with
      | inl _ => (false, with_config_dir w dir1)
      | inr dir2 => (true, with_config_dir w dir2)
      end
  end.

(** Truthiness of a config value: [None] and [""] are falsy. *)
Definition py_truthy_val (v : pyval) : bool :=
  match v with
  | PStr s => negb (String.eqb s "")
  | PNone => false
  end.

(** [save_source_of_truth] of scripts/validate_configs.py (the
    [save-sot] command): fetch the live config and save it as the
    baseline, unless it is missing or empty. *)
Definition save_source_of_truth (can_write : string -> bool) (w : world)
  (device_name config_type : string) : bool * world :=
  let configs := get_device_config w device_name in
  let config := dict_get configs config_type (PStr "") in
  if negb (py_truthy_val config) then (false, w)
  else match config with
       | PStr s => save_source_of_truth_config can_write w device_name s config_type
       | PNone => (false, w)
       end.

(* ------------------------------------------------------------------ *)
(** ** ReportGenerator: report files *)

Inductive report_kind := FmtJson | FmtCsv | FmtXlsx | FmtHtml.

(** The [if/elif] chain of [generate_validation_report]. *)
Definition parse_report_format (report_format : string) : option report_kind :=
  if String.eqb report_format "json" then Some FmtJson
  else if String.eqb report_format "csv" then Some FmtCsv
  else if String.eqb report_format "xlsx" then Some FmtXlsx
  else if String.eqb report_format "html" then Some FmtHtml
  else None.

Definition report_ext (f : report_kind) : string :=
  match f with FmtJson => "json" | FmtCsv => "csv" | FmtXlsx => "xlsx" | FmtHtml => "html" end.

Definition report_file_name (timestamp : string) (f : report_kind) : string :=
  "validation_report_" +:+ timestamp +:+ "." +:+ report_ext f.

(** What [get_report] returns. *)
Inductive report_content (J : Type) :=
  | RParsed (j : J)      (* json.load of a .json report *)
  | RText (s : string)   (* read_text() of a .csv or .html report *)
  | RBinary.             (* the string "Binary file" for .xlsx *)
Arguments RParsed {J} j.
Arguments RText {J} s.
Arguments RBinary {J}.

Record report_info (J : Type) := {
  ri_id : string;
  ri_filename : string;
  ri_format : string;
  ri_content : report_content J
}.
Arguments ri_id {J} r.
Arguments ri_filename {J} r.
Arguments ri_format {J} r.
Arguments ri_content {J} r.

Section ReportFiles.

(** The serialised text each encoder writes (JSON, CSV, the XLSX bytes
    or the HTML page) for a timestamp and a result list, and the parser
    [json.load]. The properties below hold for any of them. *)
Variable render : report_kind -> string -> list validation_result -> string.
Variable J : Type.
Variable json_load : string -> exc J.

(** [generate_validation_report]: writes
    [validation_report_<timestamp>.<ext>] into the reports directory and
    returns its name, or raises [ValueError] for another format; the
    [except] handler re-raises, so a failed write raises too. The XLSX
    workbook is written by xlsxwriter in binary; [get_report] never reads
    it back, only its presence counts. *)
Definition generate_validation_report (can_write : string -> bool)
  (reports : gmap string file_entry)
  (results : list validation_result) (report_format timestamp : string)
  : exc (string * gmap string file_entry) :=
  match parse_report_format report_format with
  | None => py_raise ("Unsupported report format: " +:+ report_format)
  | Some f =>
      let name := report_file_name timestamp f in
      match write_file can_write name (render f timestamp results) reports with
      | inl e => inl e
      | inr reports' => inr (name, reports')
      end
  end.

Definition read_text (e : file_entry) : exc string :=
  match e with
  | Readable s => inr s
  | Unreadable => py_raise "[Errno 13] Permission denied"
  end.

(** The [for ext in ["csv", "xlsx", "html"]] fallback of [get_report]. *)
Fixpoint get_report_alt (reports : gmap string file_entry) (report_id : string)
  (exts : list string) : exc (report_info J) :=
  match exts with
  | [] => py_raise ("Report " +:+ report_id +:+ " not found")
  | ext :: exts' =>
      let alt := report_id +:+ "." +:+ ext in
      match reports !! alt with
      | None => get_report_alt reports report_id exts'
      | Some e =>
          if String.eqb ext "csv" || String.eqb ext "html" then
            match read_text e with
            | inl err => inl err
            | inr s => inr {| ri_id := report_id; ri_filename := alt;
                              ri_format := ext; ri_content := RText s |}
            end
          else inr {| ri_id := report_id; ri_filename := alt;
                      ri_format := ext; ri_content := RBinary |}
      end
  end.

(** [get_report]. *)
Definition get_report (reports : gmap string file_entry) (report_id : string)
  : exc (report_info J) :=
  let report_file := report_id +:+ ".json" in
  match reports !! report_file with
  | None => get_report_alt reports report_id ["csv"; "xlsx"; "html"]
  | Some e =>
      match read_text e with
      | inl err => inl err
      | inr s =>
          match json_load s with
          | inl err => inl err
          | inr content => inr {| ri_id := report_id; ri_filename := report_file;
                                  ri_format := "json"; ri_content := RParsed content |}
          end
      end
  end.

End ReportFiles.

(** The extensions [get_report] tries before the one of a format. *)
Definition earlier_exts (k : report_kind) : list string :=
  match k with
  | FmtJson => []
  | FmtCsv => ["json"]
  | FmtXlsx => ["json"; "csv"]
  | FmtHtml => ["json"; "csv"; "xlsx"]
  end.

(* ------------------------------------------------------------------ *)
(** ** The inventory files (tasks/inventory_manager.py) *)

(** A Python dict with string keys, in insertion order. Its keys are
    distinct; [d[k] = v] replaces the value of a present key in place and
    appends a new key at the end; [del d[k]] removes the key. *)
Fixpoint dict_lookup {V} (d : list (string * V)) (k : string) : option V :=
  match d with
  | [] => None
  | (k', v) :: d' => if String.eqb k k' then Some v else dict_lookup d' k
  end.

Definition dict_contains {V} (d : list (string * V)) (k : string) : bool :=
  match dict_lookup d k with Some _ => true | None => false end.

Fixpoint dict_setitem {V} (d : list (string * V)) (k : string) (v : V)
  : list (string * V) :=
  match d with
  | [] => [(k, v)]
  | (k', v') :: d' =>
      if String.eqb k k' then (k', v) :: d' else (k', v') :: dict_setitem d' k v
  end.

Fixpoint dict_delitem {V} (d : list (string * V)) (k : string)
  : list (string * V) :=
  match d with
  | [] => []
  | (k', v') :: d' => if String.eqb k k' then d' else (k', v') :: dict_delitem d' k
  end.

(** An element of a [groups] sequence or set, or a key of a [groups]
    mapping, as [yaml.safe_load] builds it: a string; another hashable
    value (a number, a boolean, null, a date, a tuple of hashable values),
    named by its Python [repr]; or an unhashable value (a list or a
    mapping), with its type name. *)
Inductive group_item :=
  | IStr (s : string)
  | IOther (r : string)
  | IUnhashable (type_name : string).

(** The value under the [groups] key of a host, as [yaml.safe_load]
    builds it: no such key; null; a scalar that is not iterable (a
    number, a boolean or a date), with its type name; a string; a
    collection with its items (a sequence, a set, or a mapping, which
    [set.update] and [in] see through its keys); or a [!!binary] value,
    whose iteration gives ints. *)
Inductive groups_field :=
  | GAbsent
  | GNull
  | GScalar (type_name : string)
  | GStr (s : string)
  | GItems (items : list group_item)
  | GBytes (bs : list nat).

(** A host of hosts.yaml that is a mapping: its [hostname], [groups] and
    [data] keys, and its other keys with their values. *)
Record host_entry := {
  he_hostname : option string;
  he_groups : groups_field;
  he_data : option (list (string * string));
  he_other : list (string * string)
}.

(** The value of a host in hosts.yaml: [Some] mapping, or [None] for
    anything else (null, a string, a number, a list), on which
    [host_data.get] raises [AttributeError]. *)
Definition host_value := option host_entry.

(** What [yaml.safe_load] makes of an inventory file: a mapping, a falsy
    document (empty file, null, an empty list), another document (a
    non-empty list, a string, a number), or an error (the file cannot be
    opened or is not YAML). [yaml.dump] followed by [yaml.safe_load] gives
    the dumped mapping back, so a file the code writes is represented by
    the mapping it wrote. *)
Inductive yaml_doc (V : Type) :=
  | YMapping (m : list (string * V))
  | YFalsy
  | YNonMapping
  | YBroken.
Arguments YMapping {V} m.
Arguments YFalsy {V}.
Arguments YNonMapping {V}.
Arguments YBroken {V}.

(** A loaded Python object: a dict, or a value that is not one. *)
Inductive pyobj (V : Type) :=
  | ODict (m : list (string * V))
  | ONonDict.
Arguments ODict {V} m.
Arguments ONonDict {V}.

(** The inventory directory: hosts.yaml, groups.yaml and defaults.yaml
    ([None] when the file does not exist), and whether hosts.yaml can be
    written. *)
Record inventory_dir := {
  inv_hosts_file : option (yaml_doc host_value);
  inv_groups_file : option (yaml_doc string);
  inv_defaults_file : option (yaml_doc string);
  inv_writable : bool
}.

Record inventory := {
  i_hosts : pyobj host_value;
  i_groups : pyobj string;
  i_defaults : pyobj string
}.

(** [if f.exists(): with open(f) as fh: x = yaml.safe_load(fh) or {}]. *)
Definition load_yaml_or_empty {V} (f : option (yaml_doc V)) : exc (pyobj V) :=
  match f with
  | None => inr (ODict [])
  | Some (YMapping m) => inr (ODict m)
  | Some YFalsy => inr (ODict [])
  | Some YNonMapping => inr ONonDict
  | Some YBroken => py_raise "yaml.YAMLError"
  end.

Definition empty_inventory : inventory :=
  {| i_hosts := ODict []; i_groups := ODict []; i_defaults := ODict [] |}.

(** [InventoryManager.get_inventory]: any error while loading one of the
    three files gives the empty inventory. *)
Definition get_inventory (d : inventory_dir) : inventory :=
  match load_yaml_or_empty (inv_hosts_file d) with
  | inl _ => empty_inventory
  | inr h =>
      match load_yaml_or_empty (inv_groups_file d) with
      | inl _ => empty_inventory
      | inr g =>
          match load_yaml_or_empty (inv_defaults_file d) with
          | inl _ => empty_inventory
          | inr df => {| i_hosts := h; i_groups := g; i_defaults := df |}
          end
      end
  end.

(** [InventoryManager._save_hosts_inventory]: a failed write is logged
    and swallowed. *)
Definition save_hosts_inventory (d : inventory_dir) (hosts : list (string * host_value))
  : inventory_dir :=
  if inv_writable d then
    {| inv_hosts_file := Some (YMapping hosts); inv_groups_file := inv_groups_file d;
       inv_defaults_file := inv_defaults_file d; inv_writable := inv_writable d |}
  else d.

(** The entry [add_device] writes for a device. *)
Definition new_host (hostname : string) (groups : list string) (vendor device_type : string)
  (kwargs : list (string * string)) : host_entry :=
  {| he_hostname := Some hostname; he_groups := GItems (map IStr groups);
     he_data := Some ([("vendor", vendor); ("device_type", device_type)] ++ kwargs)%list;
     he_other := [] |}.

(** [InventoryManager.add_device]: the returned bool and the directory
    afterwards. Item assignment on a hosts value that is not a dict raises
    [TypeError]. *)
Definition add_device (d : inventory_dir) (device_name hostname : string)
  (groups : list string) (vendor device_type : string) (kwargs : list (string * string))
  : bool * inventory_dir :=
  match i_hosts (get_inventory d) with
  | ONonDict => (false, d)
  | ODict hosts =>
      let hosts' := dict_setitem hosts device_name
                      (Some (new_host hostname groups vendor device_type kwargs)) in
      (true, save_hosts_inventory d hosts')
  end.

(** [InventoryManager.remove_device]. On a hosts value that is not a dict,
    [in] or [del] raises [TypeError]. *)
Definition remove_device (d : inventory_dir) (device_name : string) : bool * inventory_dir :=
  match i_hosts (get_inventory d) with
  | ONonDict => (false, d)
  | ODict hosts =>
      if dict_contains hosts device_name
      then (true, save_hosts_inventory d (dict_delitem hosts device_name))
      else (false, d)
  end.

(** The one-character strings of a string: what iterating it gives. *)
Fixpoint string_chars (s : string) : list string :=
  match s with
  | EmptyString => []
  | String c s' => String c EmptyString :: string_chars s'
  end.

(** The set [groups] of [get_device_groups], kept as its strings and the
    list of its other values in insertion order. *)
Definition group_set : Type := gset string * list string.

(** [groups.update(items)]: adds each item in turn; an unhashable one
    raises [TypeError]. *)
Fixpoint update_items (items : list group_item) (acc : group_set) : exc group_set :=
  match items with
  | [] => inr acc
  | IStr s :: items' => update_items items' (acc.1 ∪ {[s]}, acc.2)
  | IOther r :: items' => update_items items' (acc.1, acc.2 ++ [r])%list
  | IUnhashable tn :: _ => py_raise ("unhashable type: '" +:+ tn +:+ "'")
  end.

(** [groups.update(host_data.get("groups", []))] for one host's value. *)
Definition update_groups (f : groups_field) (acc : group_set) : exc group_set :=
  match f with
  | GAbsent => inr acc
  | GNull => py_raise "'NoneType' object is not iterable"
  | GScalar tn => py_raise ("'" +:+ tn +:+ "' object is not iterable")
  | GStr s => update_items (map IStr (string_chars s)) acc
  | GItems items => update_items items acc
  | GBytes bs => update_items (map (fun n => IOther (pretty n)) bs) acc
  end.

(** The [for host_data in hosts.values()] loop of [get_device_groups]:
    [host_data.get] raises [AttributeError] on a host that is not a
    mapping. *)
Fixpoint collect_groups (hosts : list (string * host_value)) (acc : group_set)
  : exc group_set :=
  match hosts with
  | [] => inr acc
  | (_, None) :: _ => py_raise "'NoneType' object has no attribute 'get'"
  | (_, Some h) :: hosts' =>
      match update_groups (he_groups h) acc with
      | inl e => inl e
      | inr acc' => collect_groups hosts' acc'
      end
  end.

(** [InventoryManager.get_device_groups]: [sorted(list(groups))], any
    exception giving [[]]. [sorted] compares a string with a value of
    another type only to raise [TypeError], and a sort that succeeds has
    compared every two values that end up adjacent, so a set holding
    strings and other values raises. [sort_others] is what [sorted] does
    with a set of other values only, built from the given ones in that
    order: their sorted list, or an exception (null next to a number, a
    date next to a number); the properties below hold for any. *)
Definition get_device_groups (sort_others : list string -> exc (list string))
  (d : inventory_dir) : list group_item :=
  match i_hosts (get_inventory d) with
  | ONonDict => []
  | ODict hosts =>
      match collect_groups hosts (∅, []) with
      | inl _ => []
      | inr (strs, others) =>
          match others with
          | [] => map IStr (merge_sort String.le (elements strs))
          | _ :: _ =>
              if bool_decide (strs = ∅) then
                match sort_others others with
                | inl _ => []
                | inr rs => map IOther rs
                end
              else []
          end
      end
  end.

(** [item == group_name] for a string [group_name]: a value that is not
    a string never equals one. *)
Definition item_is (group_name : string) (i : group_item) : bool :=
  match i with
  | IStr s => String.eqb s group_name
  | _ => false
  end.

(** [group_name in host_data.get("groups", [])]: a substring test in a
    string, membership in a collection (among the keys of a mapping),
    [TypeError] on null, a non-iterable scalar or bytes. *)
Definition in_groups (group_name : string) (f : groups_field) : exc bool :=
  match f with
  | GAbsent => inr false
  | GNull => py_raise "argument of type 'NoneType' is not iterable"
  | GScalar tn => py_raise ("argument of type '" +:+ tn +:+ "' is not iterable")
  | GStr s => inr (py_contains group_name s)
  | GItems items => inr (existsb (item_is group_name) items)
  | GBytes _ => py_raise "a bytes-like object is required, not 'str'"
  end.

(** The [for device_name, host_data in hosts.items()] loop of
    [get_devices_by_group]. *)
Fixpoint devices_loop (group_name : string) (hosts : list (string * host_value))
  (devices : list string) : exc (list string) :=
  match hosts with
  | [] => inr devices
  | (_, None) :: _ => py_raise "'NoneType' object has no attribute 'get'"
  | (device_name, Some h) :: hosts' =>
      match in_groups group_name (he_groups h) with
      | inl e => inl e
      | inr true => devices_loop group_name hosts' (devices ++ [device_name])%list
      | inr false => devices_loop group_name hosts' devices
      end
  end.

(** [false] exactly for the hosts at which both loops above raise: one
    that is not a mapping, or whose [groups] is null or a non-iterable
    scalar. *)
Definition host_groups_readable (v : host_value) : bool :=
  match v with
  | None => false
  | Some e => match he_groups e with GNull | GScalar _ => false | _ => true end
  end.

(** A host at which [group_name in host_data.get("groups", [])] does not
    raise: a mapping whose [groups] is absent, a string or a collection. *)
Definition host_groups_searchable (v : host_value) : bool :=
  match v with
  | Some e => match he_groups e with GAbsent | GStr _ | GItems _ => true | _ => false end
  | None => false
  end.

Definition is_str_item (i : group_item) : bool :=
  match i with IStr _ => true | _ => false end.

(** A host whose [groups] is absent, a string, or a collection of
    strings. *)
Definition host_groups_strings (v : host_value) : bool :=
  match v with
  | Some e => match he_groups e with
              | GAbsent | GStr _ => true
              | GItems items => forallb is_str_item items
              | _ => false
              end
  | None => false
  end.

(** The strings among the items of a collection. *)
Fixpoint item_strings (items : list group_item) : list string :=
  match items with
  | [] => []
  | IStr s :: items' => s :: item_strings items'
  | _ :: items' => item_strings items'
  end.

(** The strings [groups.update] adds for one host. *)
Definition host_group_names (p : string * host_value) : list string :=
  match snd p with
  | Some e => match he_groups e with
              | GItems items => item_strings items
              | GStr s => string_chars s
              | _ => []
              end
  | None => []
  end.

Definition is_hashable_item (i : group_item) : bool :=
  match i with IUnhashable _ => false | _ => true end.

(** A host at which [groups.update(host_data.get("groups", []))] does
    not raise: a mapping whose [groups] is absent, a string, [!!binary],
    or a collection of hashable values. *)
Definition host_groups_hashable (v : host_value) : bool :=
  match v with
  | Some e => match he_groups e with
              | GAbsent | GStr _ | GBytes _ => true
              | GItems items => forallb is_hashable_item items
              | _ => false
              end
  | None => false
  end.

(** [InventoryManager.get_devices_by_group]. *)
Definition get_devices_by_group (d : inventory_dir) (group_name : string) : list string :=
  match i_hosts (get_inventory d) with
  | ONonDict => []
  | ODict hosts =>
      match devices_loop group_name hosts [] with
      | inl _ => []
      | inr devices => devices
      end
  end.

(* ------------------------------------------------------------------ *)
(** ** Validation history (tasks/config_validation.py) *)

Definition validation_results_file_name (timestamp : string) : string :=
  "validation_results_" +:+ timestamp +:+ ".json".

(** [ConfigValidator._save_validation_results]: [json.dump] of the
    results, as the text [dump results]; a failed write is logged and
    swallowed. *)
Definition save_validation_results (can_write : string -> bool)
  (dump : list validation_result -> string) (dir : gmap string file_entry)
  (timestamp : string) (results : list validation_result) : gmap string file_entry :=
  match write_file can_write (validation_results_file_name timestamp) (dump results) dir with
  | inl _ => dir
  | inr dir' => dir'
  end.

(** [s.endswith(suffix)]. *)
Definition str_endswith (suffix s : string) : bool :=
  String.eqb (String.substring (String.length s - String.length suffix)
                               (String.length suffix) s) suffix.

(** A file name matched by the pattern ["validation_results_*.json"]. *)
Definition results_glob (name : string) : bool :=
  String.prefix "validation_results_" name && str_endswith ".json" name &&
  (24 <=? String.length name)%nat.

(** [s.rfind(c)] for one character. *)
Fixpoint str_rfind (c : ascii) (s : string) : option nat :=
  match s with
  | EmptyString => None
  | String c' s' =>
      match str_rfind c s' with
      | Some i => Some (S i)
      | None => if Ascii.eqb c c' then Some 0%nat else None
      end
  end.

(** [PurePath.stem]: the name without its last suffix. *)
Definition path_stem (name : string) : string :=
  match str_rfind "."%char name with
  | Some i =>
      if ((0 <? i) && (i <? String.length name - 1))%nat
      then String.substring 0 i name else name
  | None => name
  end.

(** [s.replace(old, new)] for a non-empty [old]: every occurrence, left
    to right. Each step consumes at least one character, so
    [String.length s] steps suffice. *)
Fixpoint str_replace_aux (fuel : nat) (old new s : string) : string :=
  match fuel with
  | O => s
  | S fuel' =>
      match s with
      | EmptyString => EmptyString
      | String c s' =>
          if String.prefix old s
          then new +:+ str_replace_aux fuel' old new
                 (String.substring (String.length old) (String.length s) s)
          else String c (str_replace_aux fuel' old new s')
      end
  end.

Definition py_str_replace (old new s : string) : string :=
  str_replace_aux (String.length s) old new s.

Section History.

(** The decoded content of a results file and [json.load]. *)
Variable R : Type.
Variable json_load : string -> exc R.

Record history_entry := {
  hist_timestamp : string;
  hist_results : R
}.

(** The [for file_path in sorted(results_files, reverse=True)] loop. *)
Fixpoint history_loop (dir : gmap string file_entry) (names : list string)
  (history : list history_entry) : exc (list history_entry) :=
  match names with
  | [] => inr history
  | name :: names' =>
      match dir !! name with
      | None => py_raise ("[Errno 2] No such file or directory: '" +:+ name +:+ "'")
      | Some e =>
          match read_text e with
          | inl err => inl err
          | inr s =>
              match json_load s with
              | inl err => inl err
              | inr results =>
                  history_loop dir names'
                    (history ++ [{| hist_timestamp :=
                                      py_str_replace "validation_results_" "" (path_stem name);
                                    hist_results := results |}])%list
              end
          end
      end
  end.

(** [ConfigValidator.get_validation_history]. The file names are
    distinct, so [sorted(..., reverse=True)] is the reverse of the
    ascending order. *)
Definition get_validation_history (dir : gmap string file_entry) : list history_entry :=
  let results_files := List.filter results_glob (map fst (map_to_list dir)) in
  match history_loop dir (reverse (merge_sort String.le results_files)) [] with
  | inl _ => []
  | inr history => history
  end.

End History.

Arguments hist_timestamp {R} _.
Arguments hist_results {R} _.

(* ------------------------------------------------------------------ *)
(** ** Auxiliary definitions *)

(** The last character of a string. *)
Fixpoint last_char (s : string) : option ascii :=
  match s with
  | EmptyString => None
  | String c EmptyString => Some c
  | String _ s' => last_char s'
  end.

(** Results with status "success" or "error" only, drift only on success. *)
Definition well_formed_batch (rs : list validation_result) : Prop :=
  Forall (fun r => (vr_status r = "success" \/ vr_status r = "error") /\
                   (vr_status r = "error" -> vr_drift_detected r = false)) rs.

(* ------------------------------------------------------------------ *)
(** ** Concrete inventories *)

(** The two hosts [_create_default_inventory] writes. *)
Definition rtr_01 : host_entry := {|
  he_hostname := Some "192.168.1.1"; he_groups := GItems [IStr "routers"; IStr "cisco"];
  he_data := Some [("vendor", "cisco"); ("device_type", "ios");
                   ("username", "admin"); ("password", "admin123")];
  he_other := [] |}.

Definition sw_01 : host_entry := {|
  he_hostname := Some "192.168.1.2"; he_groups := GItems [IStr "switches"; IStr "cisco"];
  he_data := Some [("vendor", "cisco"); ("device_type", "ios");
                   ("username", "admin"); ("password", "admin123")];
  he_other := [] |}.

Definition default_hosts : list (string * host_value) :=
  [("rtr-01", Some rtr_01); ("sw-01", Some sw_01)].

Definition default_groups : list (string * string) :=
  [("routers", "data: {device_type: ios, vendor: cisco}");
   ("switches", "data: {device_type: ios, vendor: cisco}");
   ("cisco", "data: {platform: ios, vendor: cisco}")].

Definition inventory_dir_of (hosts : option (yaml_doc host_value))
  (groups : option (yaml_doc string)) (writable : bool) : inventory_dir := {|
  inv_hosts_file := hosts;
  inv_groups_file := groups;
  inv_defaults_file := Some (YMapping [("username", "admin"); ("port", "22")]);
  inv_writable := writable |}.

Definition default_inventory_dir : inventory_dir :=
  inventory_dir_of (Some (YMapping default_hosts)) (Some (YMapping default_groups)) true.

(* ================================================================== *)
(** * Proofs *)

(** ** Helper lemmas on [compare_configurations] *)

Lemma dict_get_empty (k : string) (dflt : pyval) :
  dict_get ∅ k dflt = dflt.
Proof. reflexivity. Qed.

Lemma line_set_empty : line_set "" = {[""]}.
Proof. reflexivity. Qed.

(** The drift verdict is set inequality. *)
Lemma drift_bool_iff (X Y : gset string) :
  ((0 <? size (X ∖ Y)) || (0 <? size (Y ∖ X)))%nat = negb (bool_decide (X = Y)).
Proof.
  destruct (bool_decide_reflect (X = Y)) as [->|Hne]; simpl.
  - rewrite difference_diag_L, size_empty. reflexivity.
  - destruct (Nat.ltb_spec0 0 (size (X ∖ Y))) as [|H1]; [reflexivity|].
    destruct (Nat.ltb_spec0 0 (size (Y ∖ X))) as [|H2]; [reflexivity|].
    exfalso. apply Hne.
    assert (HX : X ∖ Y = ∅) by (apply leibniz_equiv, size_empty_inv; lia).
    assert (HY : Y ∖ X = ∅) by (apply leibniz_equiv, size_empty_inv; lia).
    apply set_eq_subseteq; split; apply empty_difference_subseteq_L; assumption.
Qed.

(** Without a truthy baseline the result is the "no source of truth" dict. *)
Lemma compare_no_sot (w : world) (d t : string) :
  py_truthy_opt_str (load_source_of_truth_config w d t) = false ->
  compare_configurations w d t = no_sot_result d.
Proof.
  intros H. unfold compare_configurations, compare_body. cbv zeta.
  rewrite H. reflexivity.
Qed.

(** With a truthy baseline [s] and a string live config [v] the result
    is the line-set comparison. *)
Lemma compare_success (w : world) (d t s v : string) :
  load_source_of_truth_config w d t = Some s ->
  s <> "" ->
  dict_get (get_device_config w d) t (PStr "") = PStr v ->
  compare_configurations w d t =
  {| vr_device := d;
     vr_status := "success";
     vr_message := None;
     vr_drift_detected :=
       ((0 <? size (line_set s ∖ line_set v)) ||
        (0 <? size (line_set v ∖ line_set s)))%nat;
     vr_issues :=
       ((if (0 <? size (line_set s ∖ line_set v))%nat
         then [missing_issue (size (line_set s ∖ line_set v))] else []) ++
        (if (0 <? size (line_set v ∖ line_set s))%nat
         then [extra_issue (size (line_set v ∖ line_set s))] else []))%list;
     vr_missing_lines := Some (line_set s ∖ line_set v);
     vr_extra_lines := Some (line_set v ∖ line_set s);
     vr_timestamp := Some (w_now w) |}.
Proof.
  intros Hs Hne Hv. unfold compare_configurations, compare_body. cbv zeta.
  rewrite Hs, Hv. simpl.
  apply String.eqb_neq in Hne. rewrite Hne. reflexivity.
Qed.

(** ** C1: a failed gateway fetch *)

Lemma get_device_config_failed (w : world) (d t : string) :
  gateway_fetch_fails (w_gateway w d) = true ->
  dict_get (get_device_config w d) t (PStr "") = PStr "".
Proof.
  intros H. unfold get_device_config.
  destruct (w_gateway w d); [reflexivity | reflexivity | discriminate].
Qed.

(** C1 (counterexample): the gateway fetch of ["r1"] fails, a baseline
    exists, and [compare_configurations] reports status "success" with
    drift, not a gateway error. *)
Lemma C1_gateway_failure_not_error :
  let w := world_of NapalmFailed {["r1_running.txt" := Readable "hostname r1"]} in
  vr_status (compare_configurations w "r1" "running") = "success" /\
  vr_drift_detected (compare_configurations w "r1" "running") = true /\
  vr_issues (compare_configurations w "r1" "running") =
    ["Missing 1 lines from source of truth";
     "Extra 1 lines not in source of truth"].
Proof. repeat split; reflexivity. Qed.

(** C1 (amended): when the Device Gateway fetch fails, the live text is
    taken to be [""]. Without a truthy baseline the result is the "no
    source of truth" error; with a non-empty baseline [s] the status is
    "success", the missing lines are [line_set s ∖ {[""]}], the extra
    lines [{[""]} ∖ line_set s], and drift is reported unless the
    stripped baseline is empty. *)
Theorem C1_gateway_failure_compares_empty_live (w : world) (d t : string) :
  gateway_fetch_fails (w_gateway w d) = true ->
  (py_truthy_opt_str (load_source_of_truth_config w d t) = false ->
   compare_configurations w d t = no_sot_result d) /\
  (forall s, load_source_of_truth_config w d t = Some s -> s <> "" ->
   vr_status (compare_configurations w d t) = "success" /\
   vr_drift_detected (compare_configurations w d t) =
     negb (bool_decide (line_set s = {[""]})) /\
   vr_missing_lines (compare_configurations w d t) = Some (line_set s ∖ {[""]}) /\
   vr_extra_lines (compare_configurations w d t) = Some ({[""]} ∖ line_set s)).
Proof.
  intros Hfail. split.
  - apply compare_no_sot.
  - intros s Hs Hne.
    rewrite (compare_success w d t s "" Hs Hne (get_device_config_failed w d t Hfail)).
    simpl. rewrite line_set_empty, drift_bool_iff. auto.
Qed.

Lemma C1_witness :
  let w := world_of NapalmFailed {["r1_running.txt" := Readable "hostname r1"]} in
  gateway_fetch_fails (w_gateway w "r1") = true /\
  vr_status (compare_configurations w "r1" "running") = "success".
Proof.
  simpl. split; [reflexivity|].
  destruct (C1_gateway_failure_compares_empty_live
              (world_of NapalmFailed {["r1_running.txt" := Readable "hostname r1"]})
              "r1" "running" eq_refl) as [_ Hs].
  destruct (Hs "hostname r1") as [Hst _]; [reflexivity | discriminate | exact Hst].
Defined.

(** ** C2: no saved baseline *)

(** C2: with no saved baseline the result has status "error" and
    [drift_detected = false], the text "No source of truth configuration
    found" is in [message], and [issues] is the empty list. *)
Theorem C2_no_baseline_issues_empty (w : world) (d t : string) :
  load_source_of_truth_config w d t = None ->
  vr_status (compare_configurations w d t) = "error" /\
  vr_drift_detected (compare_configurations w d t) = false /\
  vr_message (compare_configurations w d t) =
    Some "No source of truth configuration found" /\
  vr_issues (compare_configurations w d t) = [].
Proof.
  intros H. rewrite compare_no_sot by (rewrite H; reflexivity).
  repeat split.
Qed.

Lemma C2_witness :
  load_source_of_truth_config (world_of NapalmFailed ∅) "r1" "running" = None /\
  vr_issues (compare_configurations (world_of NapalmFailed ∅) "r1" "running") = [].
Proof.
  split; [reflexivity|].
  apply (C2_no_baseline_issues_empty (world_of NapalmFailed ∅) "r1" "running").
  reflexivity.
Defined.

(** ** C4: drift and line sets *)

(** C4 (counterexample): baseline ["b\n a"] and live [" a\nb"] have the
    same set of lines, yet drift is reported: [strip()] of the whole live
    text removes the indentation of its first line ([" a"] becomes
    ["a"]). *)
Lemma C4_reordering_changes_drift :
  let sot := join_lines ["b"; " a"] in
  let live := join_lines [" a"; "b"] in
  (list_to_set (py_split nl sot) : gset string) = list_to_set (py_split nl live) /\
  vr_drift_detected (compare_configurations (r1_world sot live) "r1" "running") = true.
Proof. split; reflexivity. Qed.

(** C4 (amended): with a non-empty baseline [s] and a string live config
    [v], drift is detected exactly when the line sets of the stripped
    texts, [set(s.strip().split('\n'))] and [set(v.strip().split('\n'))],
    differ; in particular equal stripped line sets give no drift, whatever
    the order or repetition of lines. *)
Theorem C4_drift_iff_line_sets_differ (w : world) (d t s v : string) :
  load_source_of_truth_config w d t = Some s ->
  s <> "" ->
  dict_get (get_device_config w d) t (PStr "") = PStr v ->
  vr_drift_detected (compare_configurations w d t) =
    negb (bool_decide (line_set s = line_set v)).
Proof.
  intros Hs Hne Hv. rewrite (compare_success w d t s v Hs Hne Hv).
  simpl. apply drift_bool_iff.
Qed.

Lemma C4_witness :
  let w := r1_world (join_lines ["a"; "b"; "a"]) (join_lines ["b"; "a"]) in
  vr_drift_detected (compare_configurations w "r1" "running") = false.
Proof.
  simpl.
  rewrite (C4_drift_iff_line_sets_differ
             (r1_world (join_lines ["a"; "b"; "a"]) (join_lines ["b"; "a"]))
             "r1" "running" (join_lines ["a"; "b"; "a"]) (join_lines ["b"; "a"]));
    [reflexivity | reflexivity | discriminate | reflexivity].
Defined.

(** ** C5: the concrete scenario *)

(** C5: baseline "line1\nline2\nline3" against live
    "line2\nline3\nline4" gives missing {line1}, extra {line4}, drift,
    status "success" and the two issue strings. *)
Theorem C5_concrete_scenario (w : world) (d t : string) :
  load_source_of_truth_config w d t = Some (join_lines ["line1"; "line2"; "line3"]) ->
  dict_get (get_device_config w d) t (PStr "") =
    PStr (join_lines ["line2"; "line3"; "line4"]) ->
  vr_missing_lines (compare_configurations w d t) = Some {["line1"]} /\
  vr_extra_lines (compare_configurations w d t) = Some {["line4"]} /\
  vr_drift_detected (compare_configurations w d t) = true /\
  vr_status (compare_configurations w d t) = "success" /\
  vr_issues (compare_configurations w d t) =
    ["Missing 1 lines from source of truth"; "Extra 1 lines not in source of truth"].
Proof.
  intros Hs Hv. rewrite (compare_success w d t _ _ Hs ltac:(discriminate) Hv).
  repeat split; reflexivity.
Qed.

Lemma C5_witness :
  vr_status (compare_configurations
    (r1_world (join_lines ["line1"; "line2"; "line3"])
              (join_lines ["line2"; "line3"; "line4"])) "r1" "running") = "success".
Proof.
  destruct (C5_concrete_scenario
              (r1_world (join_lines ["line1"; "line2"; "line3"])
                        (join_lines ["line2"; "line3"; "line4"])) "r1" "running")
    as (_ & _ & _ & Hst & _); [reflexivity | reflexivity | exact Hst].
Defined.

(** ** C10: an empty baseline counts as absent *)

(** C10: a baseline file holding [""] is loaded as [Some ""], and
    [compare_configurations] still returns the "No source of truth
    configuration found" error. *)
Theorem C10_empty_baseline_is_no_sot (w : world) (d t : string) :
  w_config_dir w !! sot_file_name d t = Some (Readable "") ->
  load_source_of_truth_config w d t = Some "" /\
  compare_configurations w d t = no_sot_result d /\
  vr_status (compare_configurations w d t) = "error" /\
  vr_message (compare_configurations w d t) =
    Some "No source of truth configuration found".
Proof.
  intros H.
  assert (Hl : load_source_of_truth_config w d t = Some "")
    by (unfold load_source_of_truth_config; rewrite H; reflexivity).
  rewrite compare_no_sot by (rewrite Hl; reflexivity).
  auto.
Qed.

Lemma C10_witness :
  load_source_of_truth_config (r1_world "" "hostname r1") "r1" "running" = Some "" /\
  vr_status (compare_configurations (r1_world "" "hostname r1") "r1" "running") = "error".
Proof.
  destruct (C10_empty_baseline_is_no_sot (r1_world "" "hostname r1") "r1" "running")
    as (Hl & _ & Hst & _); [reflexivity | split; assumption].
Defined.

(** ** Helper lemmas on [validate_configurations] *)

Lemma fold_append_map {A B} (f : A -> B) (xs : list A) (acc : list B) :
  fold_left (fun acc x => (acc ++ [f x])%list) xs acc = (acc ++ map f xs)%list.
Proof.
  revert acc. induction xs as [|x xs IH]; intros acc; simpl.
  - by rewrite app_nil_r.
  - rewrite IH, <- app_assoc. reflexivity.
Qed.

Lemma validate_loop_flat_map (w : world) (ct : string)
  (ds : list inventory_host) (acc : list validation_result) :
  validate_loop w ct ds acc =
  (acc ++ flat_map (fun h => map (compare_configurations w (h_name h))
                                 (config_types_of ct)) ds)%list.
Proof.
  revert acc. induction ds as [|d ds IH]; intros acc; simpl.
  - by rewrite app_nil_r.
  - rewrite IH, (fold_append_map (compare_configurations w (h_name d))).
    by rewrite <- app_assoc.
Qed.

(** One result per (selected device, config type), device by device. *)
Lemma validate_ok (w : world) (hs : list inventory_host)
  (g ct : string) (dry_run : bool) :
  validate_configurations w (inr hs) g ct dry_run =
  flat_map (fun h => map (compare_configurations w (h_name h)) (config_types_of ct))
           (select_devices g hs).
Proof. unfold validate_configurations. by rewrite validate_loop_flat_map. Qed.


(** Three routers with the baseline "hostname x"; the gateway fetch of
    ["r2"] fails, the others return "hostname x". *)
Definition three_device_world : world := {|
  w_gateway := fun d =>
    if String.eqb d "r2" then NapalmFailed
    else NapalmOk {["running" := PStr "hostname x"]};
  w_config_dir := {["r1_running.txt" := Readable "hostname x";
                    "r2_running.txt" := Readable "hostname x";
                    "r3_running.txt" := Readable "hostname x"]};
  w_now := "2026-01-01T00:00:00"
|}.

(** Three hosts of the group "routers" with no ["groups__contains"] key
    in their data, their groups' data or the defaults. *)
Definition three_hosts : list inventory_host :=
  [{| h_name := "r1"; h_groups := ["routers"]; h_get := fun _ => None |};
   {| h_name := "r2"; h_groups := ["routers"]; h_get := fun _ => None |};
   {| h_name := "r3"; h_groups := ["routers"]; h_get := fun _ => None |}].

(** ** C6: per-device failures are isolated *)




(** ** C7: config-type resolution *)

(** C7: [config_type = "all"] gives, per selected device, the running
    result then the startup result (never "candidate"); any other value
    gives one result per selected device, for that type. With the device
    group "all" every host of the inventory is selected. *)
Theorem C7_all_expands_running_startup (w : world) (hs : list inventory_host)
  (g : string) (dry_run : bool) :
  validate_configurations w (inr hs) g "all" dry_run =
    flat_map (fun h => [compare_configurations w (h_name h) "running";
                        compare_configurations w (h_name h) "startup"])
             (select_devices g hs) /\
  validate_configurations w (inr hs) "all" "all" dry_run =
    flat_map (fun h => [compare_configurations w (h_name h) "running";
                        compare_configurations w (h_name h) "startup"]) hs /\
  ~ In "candidate" (config_types_of "all") /\
  (forall ct, ct <> "all" ->
   validate_configurations w (inr hs) g ct dry_run =
     map (fun h => compare_configurations w (h_name h) ct) (select_devices g hs)).
Proof.
  split; [|split; [|split]].
  - by rewrite validate_ok.
  - by rewrite validate_ok.
  - simpl. intros [H|[H|[]]]; discriminate.
  - intros ct Hct. rewrite validate_ok. unfold config_types_of.
    apply String.eqb_neq in Hct. rewrite Hct.
    induction (select_devices g hs) as [|h l IH]; simpl; [reflexivity|].
    f_equal; exact IH.
Qed.

Lemma C7_witness :
  List.length (validate_configurations three_device_world (inr three_hosts) "all" "all" true)
    = 6%nat.
Proof.
  destruct (C7_all_expands_running_startup three_device_world three_hosts "all" true)
    as (_ & H & _ & _).
  rewrite H. reflexivity.
Defined.

(** ** C8: total failure *)

(** C8: when the inventory lookup raises [e], the batch is the single
    sentinel result: device "unknown", status "error", no drift, message
    [str(e)]. *)
Theorem C8_total_failure_sentinel (w : world) (e g ct : string) (dry_run : bool) :
  validate_configurations w (inl e) g ct dry_run = [validation_error e] /\
  vr_device (validation_error e) = "unknown" /\
  vr_status (validation_error e) = "error" /\
  vr_drift_detected (validation_error e) = false /\
  vr_message (validation_error e) = Some e.
Proof. repeat split. Qed.

(** ** C3: report aggregates *)

(** Reading one labelled field of a summary. *)
Fixpoint summary_field (k : string) (fields : list (string * field_value))
  : option field_value :=
  match fields with
  | [] => None
  | (k', v) :: fs => if String.eqb k k' then Some v else summary_field k fs
  end.

Definition is_rate (v : field_value) : bool :=
  match v with FRate _ => true | _ => false end.

Lemma count_status_le (st : string) (rs : list validation_result) :
  (count_status st rs <= List.length rs)%nat.
Proof.
  unfold count_status. induction rs as [|r rs IH]; simpl; [lia|].
  destruct (String.eqb (vr_status r) st); simpl; lia.
Qed.

Lemma html_success_rate_bounds (rs : list validation_result) :
  (0 <= html_success_rate rs <= 100)%Q.
Proof.
  unfold html_success_rate.
  destruct (Nat.ltb_spec0 0 (List.length rs)) as [Hpos|Hz].
  - pose proof (count_status_le "error" rs) as Hle.
    set (T := inject_Z (Z.of_nat (List.length rs))).
    set (E := inject_Z (Z.of_nat (count_status "error" rs))).
    assert (HT : (0 < T)%Q) by (unfold T; change 0%Q with (inject_Z 0); rewrite <- Zlt_Qlt; lia).
    assert (HE : (E <= T)%Q) by (unfold T, E; rewrite <- Zle_Qle; lia).
    assert (HE0 : (0 <= E)%Q)
      by (unfold E; change 0%Q with (inject_Z 0); rewrite <- Zle_Qle; lia).
    split.
    + apply Qmult_le_0_compat; [|discriminate].
      apply Qle_shift_div_l; [exact HT|]. lra.
    + apply Qle_trans with (1 * 100)%Q; [|discriminate].
      apply Qmult_le_compat_r; [|discriminate].
      apply Qle_shift_div_r; [exact HT|]. lra.
  - split; discriminate.
Qed.

(** C3 (counterexample): not every encoding surfaces the aggregates and
    the success rate. On the empty list the CSV report is its header row
    alone, the JSON metadata has no success-rate field, and the XLSX
    "Success Rate" is the string "0/0". *)
Lemma C3_not_every_encoding_has_rate :
  csv_report [] = [csv_header] /\
  map fst (json_report_metadata "2026-01-01T00:00:00" []) =
    ["generated_at"; "total_devices"; "devices_with_drift"; "devices_with_errors"] /\
  summary_field "Success Rate" (xlsx_summary "2026-01-01T00:00:00" []) =
    Some (FStr "0/0").
Proof. repeat split. Qed.

(** C3 (amended): only the HTML report computes the success rate
    [(total - errors) / total], shown as a percentage, and it is [0] for
    an empty list and lies in [0, 100]; the JSON metadata has total, drift
    and error counts and no success rate; the XLSX summary has the three
    counts and a "Success Rate" string "successes/total" (no division, so
    "0/0" on an empty list); the CSV report has only its header and one
    row per result. *)
Theorem C3_report_aggregates (now : string) (rs : list validation_result) :
  (summary_field "Total Devices" (html_summary rs) = Some (FNat (List.length rs)) /\
   summary_field "Errors" (html_summary rs) = Some (FNat (count_status "error" rs)) /\
   summary_field "Drift Detected" (html_summary rs) = Some (FNat (count_drift rs)) /\
   summary_field "Success Rate" (html_summary rs) = Some (FRate (html_success_rate rs)) /\
   (rs = [] -> html_success_rate rs = 0%Q) /\
   (rs <> [] -> html_success_rate rs =
      ((inject_Z (Z.of_nat (List.length rs)) -
        inject_Z (Z.of_nat (count_status "error" rs)))
       / inject_Z (Z.of_nat (List.length rs)) * 100)%Q) /\
   (0 <= html_success_rate rs <= 100)%Q) /\
  (summary_field "total_devices" (json_report_metadata now rs) =
     Some (FNat (List.length rs)) /\
   summary_field "devices_with_drift" (json_report_metadata now rs) =
     Some (FNat (count_drift rs)) /\
   summary_field "devices_with_errors" (json_report_metadata now rs) =
     Some (FNat (count_status "error" rs)) /\
   Forall (fun kv => is_rate (snd kv) = false) (json_report_metadata now rs)) /\
  (summary_field "Total Devices" (xlsx_summary now rs) = Some (FNat (List.length rs)) /\
   summary_field "Devices with Drift" (xlsx_summary now rs) =
     Some (FNat (count_drift rs)) /\
   summary_field "Devices with Errors" (xlsx_summary now rs) =
     Some (FNat (count_status "error" rs)) /\
   summary_field "Success Rate" (xlsx_summary now rs) =
     Some (FStr (pretty (count_status "success" rs) +:+ "/" +:+
                 pretty (List.length rs)))) /\
  (hd [] (csv_report rs) = csv_header /\
   List.length (csv_report rs) = S (List.length rs)).
Proof.
  split; [|split; [|split]].
  - split; [reflexivity|]. split; [reflexivity|]. split; [reflexivity|].
    split; [reflexivity|]. split; [|split; [|apply html_success_rate_bounds]].
    + intros ->. reflexivity.
    + intros Hne. unfold html_success_rate.
      destruct rs as [|r rs]; [congruence|]. reflexivity.
  - repeat split. repeat constructor.
  - repeat split.
  - split; [reflexivity|]. simpl. by rewrite length_map.
Qed.

(** ** C9: manufacturer to driver *)

Lemma first_matching_driver_hit (m : string) (tbl : list (string * string))
  (i : nat) (key drv : string) :
  tbl !! i = Some (key, drv) ->
  py_contains key m = true ->
  (forall j k' d', (j < i)%nat -> tbl !! j = Some (k', d') -> py_contains k' m = false) ->
  first_matching_driver m tbl = Some drv.
Proof.
  revert i. induction tbl as [|[k d] tbl IH]; intros i Hi Hk Hbefore; [done|].
  destruct i as [|i]; simpl in *.
  - injection Hi as -> ->. by rewrite Hk.
  - rewrite (Hbefore 0%nat k d); [|lia|reflexivity].
    apply (IH i); [exact Hi | exact Hk |].
    intros j k' d' Hj Hl. apply (Hbefore (S j) k' d'); [lia | exact Hl].
Qed.

Lemma first_matching_driver_miss (m : string) (tbl : list (string * string)) :
  (forall key drv, In (key, drv) tbl -> py_contains key m = false) ->
  first_matching_driver m tbl = None.
Proof.
  induction tbl as [|[k d] tbl IH]; intros Hmiss; simpl; [reflexivity|].
  rewrite (Hmiss k d) by (left; reflexivity).
  apply IH. intros key drv Hin. apply (Hmiss key drv). right; exact Hin.
Qed.

(** C9: the lower-cased manufacturer is matched against the keys of the
    table in declaration order; the first key it contains gives the
    driver ("cisco" first, so any manufacturer containing "cisco" gets
    "ios"), and a manufacturer containing no key gets "ios". *)
Theorem C9_driver_first_substring_match (m : string) :
  (forall i key drv,
     manufacturer_mapping !! i = Some (key, drv) ->
     py_contains key (py_lower m) = true ->
     (forall j k' d', (j < i)%nat -> manufacturer_mapping !! j = Some (k', d') ->
                      py_contains k' (py_lower m) = false) ->
     map_manufacturer_to_driver m = drv) /\
  (py_contains "cisco" (py_lower m) = true -> map_manufacturer_to_driver m = "ios") /\
  ((forall key drv, In (key, drv) manufacturer_mapping ->
                    py_contains key (py_lower m) = false) ->
   map_manufacturer_to_driver m = "ios").
Proof.
  unfold map_manufacturer_to_driver. split; [|split].
  - intros i key drv Hi Hk Hbefore.
    by rewrite (first_matching_driver_hit _ _ i key drv Hi Hk Hbefore).
  - intros Hc. simpl. by rewrite Hc.
  - intros Hmiss. by rewrite (first_matching_driver_miss _ _ Hmiss).
Qed.

Lemma C9_witness :
  map_manufacturer_to_driver "Juniper Networks" = "junos" /\
  map_manufacturer_to_driver "Dell EMC" = "ios".
Proof.
  destruct (C9_driver_first_substring_match "Juniper Networks") as [Hhit _].
  destruct (C9_driver_first_substring_match "Dell EMC") as (_ & _ & Hmiss).
  split.
  - apply (Hhit 1%nat "juniper" "junos"); [reflexivity | reflexivity |].
    intros j k' d' Hj Hl. destruct j as [|j]; [|lia].
    injection Hl as <- <-. reflexivity.
  - apply Hmiss. intros key drv Hin.
    repeat (destruct Hin as [Hin|Hin]; [injection Hin as <- <-; reflexivity|]).
    destruct Hin.
Defined.

(* ================================================================== *)
(** * Further properties of the code *)

(** ** Saving baselines *)

Lemma last_char_append (a b : string) :
  b <> EmptyString -> last_char (a +:+ b) = last_char b.
Proof.
  intros Hb. induction a as [|c a IH]; [reflexivity|].
  simpl. rewrite <- IH. destruct a; simpl; [destruct b; [congruence|reflexivity]|reflexivity].
Qed.

Lemma append_eq_empty (a b : string) : a +:+ b = EmptyString -> b = EmptyString.
Proof. destruct a; simpl; [auto | discriminate]. Qed.

(** A metadata file is never a baseline file ([.json] against [.txt]). *)
Lemma metadata_ne_sot (d t d' t' : string) :
  metadata_file_name d t <> sot_file_name d' t'.
Proof.
  unfold metadata_file_name, sot_file_name. intros H.
  apply (f_equal last_char) in H.
  rewrite !last_char_append in H
    by (intros Hx; repeat apply append_eq_empty in Hx; discriminate Hx).
  simpl in H. discriminate H.
Qed.

Lemma load_insert_sot (w : world) (dir : gmap string file_entry)
  (d t d' t' c : string) :
  load_source_of_truth_config (with_config_dir w (<[sot_file_name d t := Readable c]> dir)) d' t' =
  if String.eqb (sot_file_name d t) (sot_file_name d' t') then Some c
  else load_source_of_truth_config (with_config_dir w dir) d' t'.
Proof.
  unfold load_source_of_truth_config. simpl.
  destruct (String.eqb_spec (sot_file_name d t) (sot_file_name d' t')) as [->|Hne].
  - by rewrite lookup_insert_eq.
  - by rewrite lookup_insert_ne.
Qed.

Lemma load_insert_metadata (w : world) (dir : gmap string file_entry)
  (d t d' t' text : string) :
  load_source_of_truth_config
    (with_config_dir w (<[metadata_file_name d t := Readable text]> dir)) d' t' =
  load_source_of_truth_config (with_config_dir w dir) d' t'.
Proof.
  unfold load_source_of_truth_config. simpl.
  rewrite lookup_insert_ne; [reflexivity|]. apply metadata_ne_sot.
Qed.

Lemma with_config_dir_same (w : world) : with_config_dir w (w_config_dir w) = w.
Proof. by destruct w. Qed.

(** A text without "\r" reads back unchanged. *)
Lemma universal_newlines_no_cr (s : string) :
  py_contains (String cr EmptyString) s = false -> universal_newlines s = s.
Proof.
  induction s as [|c s IH]; [reflexivity|].
  cbn [py_contains String.prefix]. intros H. apply orb_false_iff in H as [Hp Hs].
  cbn [universal_newlines].
  destruct (Ascii.eqb_spec c cr) as [->|_].
  - exfalso. revert Hp. cbn. destruct (ascii_dec cr cr); [destruct s; discriminate|congruence].
  - by rewrite IH.
Qed.

(** What [load_source_of_truth_config] sees after a save: the saved text,
    read back in text mode, at the baseline's file name as soon as the
    first write succeeded, everything else unchanged. *)
Lemma load_after_save (can_write : string -> bool) (w : world) (d c t : string)
  (b : bool) (w' : world) (d' t' : string) :
  save_source_of_truth_config can_write w d c t = (b, w') ->
  load_source_of_truth_config w' d' t' =
  if can_write (sot_file_name d t) && String.eqb (sot_file_name d t) (sot_file_name d' t')
  then Some (universal_newlines c) else load_source_of_truth_config w d' t'.
Proof.
  unfold save_source_of_truth_config, write_file.
  destruct (can_write (sot_file_name d t)) eqn:Hw1; simpl.
  - destruct (can_write (metadata_file_name d t)); intros H; injection H as <- <-.
    + rewrite load_insert_metadata, load_insert_sot, with_config_dir_same. reflexivity.
    + rewrite load_insert_sot, with_config_dir_same. reflexivity.
  - intros H. by injection H as <- <-.
Qed.

(** X1: after [save_source_of_truth_config] with both files writable it
    returns [True], and [load_source_of_truth_config] for the same device
    and type returns the saved text as a text-mode read gives it back:
    "\r\n" and a lone "\r" become "\n"; a text without "\r" comes back
    unchanged. *)
Theorem save_load_roundtrip (can_write : string -> bool) (w : world) (d c t : string) :
  can_write (sot_file_name d t) = true ->
  can_write (metadata_file_name d t) = true ->
  fst (save_source_of_truth_config can_write w d c t) = true /\
  load_source_of_truth_config (snd (save_source_of_truth_config can_write w d c t)) d t
    = Some (universal_newlines c) /\
  (py_contains (String cr EmptyString) c = false ->
   load_source_of_truth_config (snd (save_source_of_truth_config can_write w d c t)) d t
     = Some c).
Proof.
  intros H1 H2.
  assert (Hl : load_source_of_truth_config
                 (snd (save_source_of_truth_config can_write w d c t)) d t
               = Some (universal_newlines c)).
  { rewrite (load_after_save can_write w d c t _ _ d t (surjective_pairing _)).
    by rewrite H1, String.eqb_refl. }
  split; [|split; [exact Hl|]].
  - unfold save_source_of_truth_config, write_file. by rewrite H1, H2.
  - intros Hc. by rewrite Hl, universal_newlines_no_cr.
Qed.

(** X2: when the baseline file is written but the metadata file cannot
    be, [save_source_of_truth_config] returns [False] although the new
    baseline is already in place. *)
Theorem save_partial_failure (can_write : string -> bool) (w : world) (d c t : string) :
  can_write (sot_file_name d t) = true ->
  can_write (metadata_file_name d t) = false ->
  fst (save_source_of_truth_config can_write w d c t) = false /\
  load_source_of_truth_config (snd (save_source_of_truth_config can_write w d c t)) d t
    = Some (universal_newlines c).
Proof.
  intros H1 H2. split.
  - unfold save_source_of_truth_config, write_file. by rewrite H1, H2.
  - rewrite (load_after_save can_write w d c t _ _ d t (surjective_pairing _)).
    by rewrite H1, String.eqb_refl.
Qed.

(** X3: the baseline file name is ["<device>_<type>.txt"], so once the
    baseline file of (device, type) is written, every (device', type')
    with the same file name loads the new text too, such as device "a_b"
    with type "c" and device "a" with type "b_c". *)
Theorem save_affects_same_file_name (can_write : string -> bool) (w : world)
  (d c t d' t' : string) :
  can_write (sot_file_name d t) = true ->
  sot_file_name d t = sot_file_name d' t' ->
  load_source_of_truth_config (snd (save_source_of_truth_config can_write w d c t)) d' t' =
  Some (universal_newlines c).
Proof.
  intros H1 Heq. rewrite (load_after_save can_write w d c t _ _ d' t' (surjective_pairing _)).
  by rewrite H1, Heq, String.eqb_refl.
Qed.

(** X5: after a successful [save-sot] of a live config without "\r",
    comparing the same device and type (the gateway answering as before)
    reports status "success", no drift, no issues and no missing or extra
    lines. *)
Theorem save_sot_then_compare_no_drift (can_write : string -> bool) (w w' : world)
  (d t s : string) :
  dict_get (get_device_config w d) t (PStr "") = PStr s ->
  py_contains (String cr EmptyString) s = false ->
  save_source_of_truth can_write w d t = (true, w') ->
  vr_status (compare_configurations w' d t) = "success" /\
  vr_drift_detected (compare_configurations w' d t) = false /\
  vr_issues (compare_configurations w' d t) = [] /\
  vr_missing_lines (compare_configurations w' d t) = Some ∅ /\
  vr_extra_lines (compare_configurations w' d t) = Some ∅.
Proof.
  intros Hv Hcr. unfold save_source_of_truth. cbv zeta. rewrite Hv. simpl.
  destruct (String.eqb_spec s "") as [->|Hne]; simpl; [discriminate|].
  intros Hsave.
  assert (Hl : load_source_of_truth_config w' d t = Some s).
  { rewrite (load_after_save can_write w d s t true w' d t Hsave).
    destruct (can_write (sot_file_name d t)) eqn:Hw; simpl.
    - by rewrite String.eqb_refl, universal_newlines_no_cr.
    - exfalso. unfold save_source_of_truth_config, write_file in Hsave.
      rewrite Hw in Hsave. discriminate. }
  assert (Hg : w_gateway w' = w_gateway w).
  { unfold save_source_of_truth_config, write_file in Hsave.
    destruct (can_write _), (can_write _); inversion Hsave; reflexivity. }
  assert (Hv' : dict_get (get_device_config w' d) t (PStr "") = PStr s).
  { unfold get_device_config in *. by rewrite Hg. }
  rewrite (compare_success w' d t s s Hl Hne Hv'). simpl.
  rewrite difference_diag_L, size_empty. repeat split.
Qed.

Lemma save_load_roundtrip_witness :
  load_source_of_truth_config
    (snd (save_source_of_truth_config (fun _ => true) (world_of NapalmFailed ∅)
            "r1" (String "a"%char (String cr (String nl "b"))) "running")) "r1" "running"
  = Some (String "a"%char (String nl "b")).
Proof.
  exact (proj1 (proj2 (save_load_roundtrip (fun _ => true) (world_of NapalmFailed ∅)
                  "r1" (String "a"%char (String cr (String nl "b"))) "running"
                  eq_refl eq_refl))).
Defined.

Lemma save_partial_failure_witness :
  let cw := fun p => negb (String.eqb p (metadata_file_name "r1" "running")) in
  fst (save_source_of_truth_config cw (world_of NapalmFailed ∅) "r1" "hostname r1" "running")
    = false.
Proof.
  exact (proj1 (save_partial_failure
                  (fun p => negb (String.eqb p (metadata_file_name "r1" "running")))
                  (world_of NapalmFailed ∅) "r1" "hostname r1" "running" eq_refl eq_refl)).
Defined.

Lemma save_affects_same_file_name_witness :
  load_source_of_truth_config
    (snd (save_source_of_truth_config (fun _ => true)
            (world_of NapalmFailed {["a_b_c.txt" := Readable "old"]}) "a" "new" "b_c"))
    "a_b" "c" = Some "new".
Proof.
  exact (save_affects_same_file_name (fun _ => true)
           (world_of NapalmFailed {["a_b_c.txt" := Readable "old"]})
           "a" "new" "b_c" "a_b" "c" eq_refl eq_refl).
Defined.

Lemma save_sot_then_compare_no_drift_witness :
  let w' := snd (save_source_of_truth (fun _ => true) (r1_world "" "hostname r1") "r1" "running") in
  vr_drift_detected (compare_configurations w' "r1" "running") = false.
Proof.
  exact (proj1 (proj2 (save_sot_then_compare_no_drift (fun _ => true)
          (r1_world "" "hostname r1")
          (snd (save_source_of_truth (fun _ => true) (r1_world "" "hostname r1") "r1" "running"))
          "r1" "running" "hostname r1" eq_refl eq_refl eq_refl))).
Defined.

(** ** Shape of comparison results *)

(** Every result of [compare_configurations] is the "no source of truth"
    dict, an exception dict, or the line-set comparison. *)
Lemma compare_cases (w : world) (d t : string) :
  compare_configurations w d t = no_sot_result d \/
  (exists e, compare_configurations w d t = comparison_error d e) \/
  (exists s v, load_source_of_truth_config w d t = Some s /\ s <> "" /\
   dict_get (get_device_config w d) t (PStr "") = PStr v).
Proof.
  destruct (py_truthy_opt_str (load_source_of_truth_config w d t)) eqn:Ht.
  - destruct (load_source_of_truth_config w d t) as [s|] eqn:Hs; [|discriminate].
    assert (Hne : s <> "").
    { simpl in Ht. intros ->. discriminate. }
    destruct (dict_get (get_device_config w d) t (PStr "")) as [v|] eqn:Hv.
    + right; right. exists s, v. auto.
    + right; left. exists "'NoneType' object has no attribute 'strip'".
      unfold compare_configurations, compare_body. cbv zeta.
      rewrite Hs, Hv. simpl in Ht |- *. rewrite Ht. reflexivity.
  - left. by apply compare_no_sot.
Qed.

(** X6: every result of [compare_configurations] names the device it was
    asked for, has status "success" or "error", and an "error" result
    never reports drift. *)
Theorem compare_status_invariant (w : world) (d t : string) :
  vr_device (compare_configurations w d t) = d /\
  (vr_status (compare_configurations w d t) = "success" \/
   vr_status (compare_configurations w d t) = "error") /\
  (vr_status (compare_configurations w d t) = "error" ->
   vr_drift_detected (compare_configurations w d t) = false).
Proof.
  destruct (compare_cases w d t) as [->|[[e ->]|(s & v & Hs & Hne & Hv)]].
  - repeat split; auto.
  - repeat split; auto.
  - rewrite (compare_success w d t s v Hs Hne Hv). simpl.
    split; [reflexivity|]. split; [left; reflexivity|discriminate].
Qed.

Lemma drift_issues_link (X Y : gset string) :
  let issues :=
    ((if (0 <? size X)%nat then [missing_issue (size X)] else []) ++
     (if (0 <? size Y)%nat then [extra_issue (size Y)] else []))%list in
  (((0 <? size X) || (0 <? size Y))%nat = false <-> issues = []) /\
  (List.length issues <= 2)%nat.
Proof.
  simpl. destruct (0 <? size X)%nat, (0 <? size Y)%nat; simpl;
    (split; [split; intros H; discriminate H || reflexivity | lia]).
Qed.

(** X7: a reported drift always comes with at least one issue; for a
    "success" result, no drift is the same as no issues, there are at
    most two issues, and the missing and extra lines are disjoint. *)
Theorem compare_drift_issues (w : world) (d t : string) :
  (vr_drift_detected (compare_configurations w d t) = true ->
   vr_issues (compare_configurations w d t) <> []) /\
  (vr_status (compare_configurations w d t) = "success" ->
   (vr_drift_detected (compare_configurations w d t) = false <->
    vr_issues (compare_configurations w d t) = []) /\
   (List.length (vr_issues (compare_configurations w d t)) <= 2)%nat /\
   exists M E, vr_missing_lines (compare_configurations w d t) = Some M /\
               vr_extra_lines (compare_configurations w d t) = Some E /\
               M ## E).
Proof.
  destruct (compare_cases w d t) as [->|[[e ->]|(s & v & Hs & Hne & Hv)]].
  - split; [discriminate | discriminate].
  - split; [intros _; discriminate | discriminate].
  - rewrite (compare_success w d t s v Hs Hne Hv). simpl.
    destruct (drift_issues_link (line_set s ∖ line_set v) (line_set v ∖ line_set s))
      as [Hiff Hlen].
    split; [|intros _; split; [exact Hiff | split; [exact Hlen|]]].
    + intros Hd He. apply Hiff in He. congruence.
    + eexists _, _. split; [reflexivity|]. split; [reflexivity|]. set_solver.
Qed.

(** ** Batches and their reports *)

Lemma count_status_app (st : string) (l1 l2 : list validation_result) :
  count_status st (l1 ++ l2) = (count_status st l1 + count_status st l2)%nat.
Proof. unfold count_status. by rewrite List.filter_app, length_app. Qed.

Lemma count_drift_app (l1 l2 : list validation_result) :
  count_drift (l1 ++ l2) = (count_drift l1 + count_drift l2)%nat.
Proof. unfold count_drift. by rewrite List.filter_app, length_app. Qed.

Lemma well_formed_counts (rs : list validation_result) :
  well_formed_batch rs ->
  (count_status "success" rs + count_status "error" rs = List.length rs)%nat /\
  (count_drift rs <= count_status "success" rs)%nat.
Proof.
  unfold well_formed_batch, count_status, count_drift.
  induction 1 as [|r rs [Hsw Hd] _ [IH1 IH2]]; simpl; [lia|].
  destruct Hsw as [Hs|He].
  - rewrite Hs. simpl. destruct (vr_drift_detected r); simpl; lia.
  - rewrite He, (Hd He). simpl. lia.
Qed.

Lemma validate_well_formed (w : world) (hosts : exc (list inventory_host))
  (g ct : string) (dry_run : bool) :
  well_formed_batch (validate_configurations w hosts g ct dry_run).
Proof.
  destruct hosts as [e|hs].
  - unfold well_formed_batch. simpl.
    constructor; [|constructor]. simpl. split; [right; reflexivity | reflexivity].
  - rewrite validate_ok. unfold well_formed_batch.
    apply Forall_flat_map, Forall_forall. intros h _.
    apply Forall_map, Forall_forall. intros t _.
    destruct (compare_status_invariant w (h_name h) t) as (_ & H1 & H2). auto.
Qed.

(** X8: in every batch [validate_configurations] returns, each result is
    a success or an error, so successes + errors = total and drift count
    <= successes; the XLSX "Success Rate" string is therefore
    "(total - errors)/total", the numerator of the HTML rate. *)
Theorem batch_counts (w : world) (hosts : exc (list inventory_host))
  (g ct : string) (dry_run : bool) (now : string) :
  let rs := validate_configurations w hosts g ct dry_run in
  (count_status "success" rs + count_status "error" rs = List.length rs)%nat /\
  (count_drift rs <= count_status "success" rs)%nat /\
  summary_field "Success Rate" (xlsx_summary now rs) =
    Some (FStr (pretty (List.length rs - count_status "error" rs)%nat +:+ "/" +:+
                pretty (List.length rs))).
Proof.
  intros rs. destruct (well_formed_counts _ (validate_well_formed w hosts g ct dry_run))
    as [H1 H2]. fold rs in H1, H2.
  split; [exact H1|]. split; [exact H2|].
  assert (Hs : count_status "success" rs =
               (List.length rs - count_status "error" rs)%nat) by lia.
  unfold xlsx_summary. simpl. rewrite Hs. reflexivity.
Qed.

(** X9: for a config type other than "running", "startup" and
    "candidate" the live text is always [""]: the result does not depend
    on what the gateway returns. *)
Theorem compare_unknown_type_ignores_gateway (w : world)
  (gw : string -> napalm_outcome) (d t : string) :
  t <> "running" -> t <> "startup" -> t <> "candidate" ->
  compare_configurations w d t =
  compare_configurations {| w_gateway := gw; w_config_dir := w_config_dir w;
                            w_now := w_now w |} d t.
Proof.
  intros H1 H2 H3.
  assert (Hg : forall w0 : world,
            dict_get (get_device_config w0 d) t (PStr "") = PStr "").
  { intros w0. unfold get_device_config, dict_get.
    destruct (w_gateway w0 d); [reflexivity|reflexivity|].
    rewrite lookup_insert_ne by congruence.
    rewrite lookup_insert_ne by congruence.
    rewrite lookup_singleton_ne by congruence. reflexivity. }
  unfold compare_configurations, compare_body. cbv zeta.
  rewrite !Hg. reflexivity.
Qed.

Lemma compare_unknown_type_ignores_gateway_witness :
  compare_configurations (r1_world "a" "b") "r1" "backup" =
  compare_configurations {| w_gateway := fun _ => NapalmFailed;
                            w_config_dir := w_config_dir (r1_world "a" "b");
                            w_now := w_now (r1_world "a" "b") |} "r1" "backup".
Proof.
  apply (compare_unknown_type_ignores_gateway (r1_world "a" "b")
    (fun _ => NapalmFailed) "r1" "backup"); discriminate.
Defined.

(** ** Report files *)

Lemma string_app_assoc (a b c : string) : (a +:+ b) +:+ c = a +:+ (b +:+ c).
Proof.
  induction a as [|x a IH]; [reflexivity|].
  change (String x ((a +:+ b) +:+ c) = String x (a +:+ (b +:+ c))).
  rewrite IH. reflexivity.
Qed.

Lemma string_app_cancel_l (p a b : string) : p +:+ a = p +:+ b -> a = b.
Proof. induction p as [|x p IH]; simpl; [auto | intros H; injection H; auto]. Qed.

Lemma string_app_ne (p a b : string) : a <> b -> p +:+ a <> p +:+ b.
Proof. intros Hab H. by apply Hab, (string_app_cancel_l p). Qed.

Lemma dot_ext (e : string) : "." +:+ e = String "."%char e.
Proof. reflexivity. Qed.

(** X10: [generate_validation_report] raises
    "Unsupported report format: <f>" for any format other than "json",
    "csv", "xlsx" and "html"; for those it writes exactly one file,
    [validation_report_<timestamp>.<f>], and leaves every other file of
    the reports directory as it was; when that file cannot be written it
    raises. *)
Theorem generate_report_files (can_write : string -> bool)
  (render : report_kind -> string -> list validation_result -> string)
  (reports : gmap string file_entry)
  (results : list validation_result) (f timestamp : string) :
  (parse_report_format f = None ->
   generate_validation_report render can_write reports results f timestamp =
     inl ("Unsupported report format: " +:+ f)) /\
  (forall name reports',
   generate_validation_report render can_write reports results f timestamp = inr (name, reports') ->
   In f ["json"; "csv"; "xlsx"; "html"] /\
   name = "validation_report_" +:+ timestamp +:+ "." +:+ f /\
   (exists text, reports' !! name = Some (Readable text)) /\
   (forall k, k <> name -> reports' !! k = reports !! k)) /\
  (forall k, parse_report_format f = Some k ->
   can_write (report_file_name timestamp k) = false ->
   exists err, generate_validation_report render can_write reports results f timestamp = inl err).
Proof.
  unfold generate_validation_report. split; [|split].
  - intros H. by rewrite H.
  - intros name reports'.
    destruct (parse_report_format f) as [k|] eqn:Hk; [|discriminate].
    unfold write_file. destruct (can_write _); [|discriminate].
    intros H. injection H as <- <-.
    assert (Hf : f = report_ext k /\ In f ["json"; "csv"; "xlsx"; "html"]).
    { unfold parse_report_format in Hk.
      destruct (String.eqb_spec f "json") as [->|_]; [injection Hk as <-; simpl; tauto|].
      destruct (String.eqb_spec f "csv") as [->|_]; [injection Hk as <-; simpl; tauto|].
      destruct (String.eqb_spec f "xlsx") as [->|_]; [injection Hk as <-; simpl; tauto|].
      destruct (String.eqb_spec f "html") as [->|_]; [injection Hk as <-; simpl; tauto|].
      discriminate. }
    destruct Hf as [-> Hin]. split; [exact Hin|]. split; [reflexivity|]. split.
    + eexists. apply lookup_insert_eq.
    + intros k' Hk'. by apply lookup_insert_ne.
  - intros k Hk Hw. rewrite Hk. unfold write_file. rewrite Hw. by eexists.
Qed.

Section ReportFileProofs.

Variable render : report_kind -> string -> list validation_result -> string.
Variable J : Type.
Variable json_load : string -> exc J.

(** [get_report] answers from the file of the first extension present. *)
Lemma get_report_first_found (reports : gmap string file_entry) (id : string)
  (k : report_kind) (e : file_entry) :
  Forall (fun x => reports !! (id +:+ "." +:+ x) = None) (earlier_exts k) ->
  reports !! (id +:+ "." +:+ report_ext k) = Some e ->
  get_report J json_load reports id =
  match k with
  | FmtJson =>
      match read_text e with
      | inl err => inl err
      | inr s =>
          match json_load s with
          | inl err => inl err
          | inr j => inr {| ri_id := id; ri_filename := id +:+ "." +:+ report_ext k;
                            ri_format := "json"; ri_content := RParsed j |}
          end
      end
  | FmtXlsx => inr {| ri_id := id; ri_filename := id +:+ "." +:+ report_ext k;
                      ri_format := "xlsx"; ri_content := RBinary |}
  | _ =>
      match read_text e with
      | inl err => inl err
      | inr s => inr {| ri_id := id; ri_filename := id +:+ "." +:+ report_ext k;
                        ri_format := report_ext k; ri_content := RText s |}
      end
  end.
Proof.
  intros Hearly He. unfold get_report. cbv zeta.
  destruct k; simpl in Hearly, He |- *; rewrite ?dot_ext in *.
  - by rewrite He.
  - inversion Hearly as [|? ? Hj _]. rewrite dot_ext in Hj.
    rewrite Hj. simpl. rewrite ?dot_ext. by rewrite He.
  - inversion Hearly as [|? ? Hj Hrest]. inversion Hrest as [|? ? Hc _].
    rewrite dot_ext in Hj, Hc.
    rewrite Hj. simpl. rewrite ?dot_ext. by rewrite Hc, He.
  - inversion Hearly as [|? ? Hj Hrest]. inversion Hrest as [|? ? Hc Hrest'].
    inversion Hrest' as [|? ? Hx _]. rewrite dot_ext in Hj, Hc, Hx.
    rewrite Hj. simpl. rewrite ?dot_ext. by rewrite Hc, Hx, He.
Qed.


Lemma report_file_name_id (timestamp : string) (k : report_kind) :
  report_file_name timestamp k =
  ("validation_report_" +:+ timestamp) +:+ ("." +:+ report_ext k).
Proof. unfold report_file_name. by rewrite string_app_assoc. Qed.

Lemma parse_report_ext (k : report_kind) : parse_report_format (report_ext k) = Some k.
Proof. by destruct k. Qed.

Lemma earlier_exts_ne (k : report_kind) (x : string) :
  In x (earlier_exts k) -> x <> report_ext k.
Proof. destruct k; simpl; intuition (subst; discriminate). Qed.

(** X12: generating a report and then asking [get_report] for its id
    [validation_report_<timestamp>] returns that report: its format, its
    file name, and its content, which is the written text as a text-mode
    read gives it back ("\r\n" and a lone "\r" read as "\n"), parsed by
    [json.load] for JSON, or "Binary file" for XLSX; this holds provided
    no file of the same id with a format [get_report] tries earlier is in
    the directory. *)
Theorem generate_then_get_report (can_write : string -> bool)
  (reports : gmap string file_entry)
  (results : list validation_result) (k : report_kind) (timestamp : string) :
  let id := "validation_report_" +:+ timestamp in
  Forall (fun e => reports !! (id +:+ "." +:+ e) = None) (earlier_exts k) ->
  forall name reports',
  generate_validation_report render can_write reports results (report_ext k) timestamp
    = inr (name, reports') ->
  get_report J json_load reports' id =
  match k with
  | FmtJson =>
      match json_load (universal_newlines (render k timestamp results)) with
      | inl e => inl e
      | inr j => inr {| ri_id := id; ri_filename := name; ri_format := "json";
                        ri_content := RParsed j |}
      end
  | FmtXlsx => inr {| ri_id := id; ri_filename := name; ri_format := "xlsx";
                      ri_content := RBinary |}
  | _ => inr {| ri_id := id; ri_filename := name; ri_format := report_ext k;
                ri_content := RText (universal_newlines (render k timestamp results)) |}
  end.
Proof.
  cbv zeta. unfold generate_validation_report, write_file.
  rewrite parse_report_ext, report_file_name_id.
  destruct (can_write _); [|intros _ ? ? H; discriminate].
  generalize (universal_newlines (render k timestamp results)) as text.
  generalize ("validation_report_" +:+ timestamp) as id.
  intros id text Hearly name reports' H. injection H as <- <-.
  rewrite (get_report_first_found _ id k (Readable text)).
  - by destruct k.
  - apply Forall_forall. intros x Hx.
    rewrite lookup_insert_ne
      by (apply string_app_ne, string_app_ne, not_eq_sym, earlier_exts_ne; by apply list_elem_of_In).
    by apply (proj1 (Forall_forall _ _) Hearly).
  - apply lookup_insert_eq.
Qed.

End ReportFileProofs.

Lemma generate_report_files_witness :
  generate_validation_report (fun _ _ _ => "report") (fun _ => true) ∅ [] "pdf" "20260101_000000" =
    inl ("Unsupported report format: " +:+ "pdf").
Proof.
  apply (proj1 (generate_report_files (fun _ => true) (fun _ _ _ => "report") ∅ [] "pdf"
                  "20260101_000000")).
  reflexivity.
Defined.


Lemma generate_then_get_report_witness :
  get_report string (fun s => inr s)
    {["validation_report_1.csv" := Readable (String "a"%char (String nl "b"))]}
    ("validation_report_" +:+ "1") =
  inr {| ri_id := "validation_report_" +:+ "1";
         ri_filename := "validation_report_1.csv";
         ri_format := "csv"; ri_content := RText (String "a"%char (String nl "b")) |}.
Proof.
  apply (generate_then_get_report (fun _ _ _ => String "a"%char (String cr (String nl "b")))
           string (fun s => inr s) (fun _ => true) ∅ [] FmtCsv "1").
  - repeat constructor.
  - reflexivity.
Defined.

(** ** Inventory files *)


Lemma dict_lookup_setitem_eq {V} (d : list (string * V)) k v :
  dict_lookup (dict_setitem d k v) k = Some v.
Proof.
  induction d as [|[k' v'] d IH]; simpl.
  - by rewrite String.eqb_refl.
  - destruct (String.eqb_spec k k') as [->|Hne]; simpl.
    + by rewrite String.eqb_refl.
    + apply String.eqb_neq in Hne. by rewrite Hne.
Qed.

Lemma dict_lookup_setitem_ne {V} (d : list (string * V)) k k' v :
  k' <> k -> dict_lookup (dict_setitem d k v) k' = dict_lookup d k'.
Proof.
  intros Hne. induction d as [|[k0 v0] d IH]; simpl.
  - apply String.eqb_neq in Hne. by rewrite Hne.
  - destruct (String.eqb_spec k k0) as [->|Hk]; simpl.
    + apply String.eqb_neq in Hne. by rewrite Hne.
    + by rewrite IH.
Qed.

Lemma dict_lookup_delitem_ne {V} (d : list (string * V)) k k' :
  k' <> k -> dict_lookup (dict_delitem d k) k' = dict_lookup d k'.
Proof.
  intros Hne. induction d as [|[k0 v0] d IH]; simpl; [reflexivity|].
  destruct (String.eqb_spec k k0) as [->|Hk]; simpl.
  - apply String.eqb_neq in Hne. by rewrite Hne.
  - by rewrite IH.
Qed.

Lemma dict_lookup_None {V} (d : list (string * V)) k :
  k ∉ d.*1 -> dict_lookup d k = None.
Proof.
  induction d as [|[k0 v0] d IH]; simpl; [reflexivity|].
  intros Hk. destruct (String.eqb_spec k k0) as [->|Hne].
  - exfalso. apply Hk. left.
  - apply IH. intros H. apply Hk. by right.
Qed.

Lemma dict_lookup_delitem_eq {V} (d : list (string * V)) k :
  NoDup d.*1 -> dict_lookup (dict_delitem d k) k = None.
Proof.
  induction d as [|[k0 v0] d IH]; simpl; [reflexivity|].
  intros Hnd. inversion Hnd as [|? ? Hn Hnd']; subst.
  destruct (String.eqb_spec k k0) as [->|Hne].
  - by apply dict_lookup_None.
  - simpl. apply String.eqb_neq in Hne. rewrite Hne. by apply IH.
Qed.

Lemma dict_delitem_setitem_fresh {V} (d : list (string * V)) k v :
  dict_lookup d k = None -> dict_delitem (dict_setitem d k v) k = d.
Proof.
  induction d as [|[k0 v0] d IH]; simpl.
  - by rewrite String.eqb_refl.
  - destruct (String.eqb_spec k k0) as [->|Hne]; [discriminate|].
    intros H. simpl. apply String.eqb_neq in Hne. rewrite Hne. by rewrite IH.
Qed.

Lemma dict_contains_lookup {V} (d : list (string * V)) k :
  dict_contains d k = true <-> dict_lookup d k <> None.
Proof. unfold dict_contains. destruct (dict_lookup d k); split; congruence. Qed.

Lemma get_inventory_hosts (d : inventory_dir) hosts :
  load_yaml_or_empty (inv_hosts_file d) = inr (ODict hosts) ->
  inv_groups_file d <> Some YBroken -> inv_defaults_file d <> Some YBroken ->
  i_hosts (get_inventory d) = ODict hosts.
Proof.
  intros Hh Hg Hd. unfold get_inventory. rewrite Hh.
  destruct (inv_groups_file d) as [[]|]; try congruence; simpl;
  destruct (inv_defaults_file d) as [[]|]; try congruence; reflexivity.
Qed.

Lemma get_inventory_broken (d : inventory_dir) :
  inv_hosts_file d = Some YBroken \/ inv_groups_file d = Some YBroken \/
  inv_defaults_file d = Some YBroken ->
  get_inventory d = empty_inventory.
Proof.
  intros H. unfold get_inventory.
  destruct (inv_hosts_file d) as [[]|]; simpl;
  destruct (inv_groups_file d) as [[]|]; simpl;
  destruct (inv_defaults_file d) as [[]|]; simpl;
  try reflexivity; exfalso; intuition discriminate.
Qed.

Lemma save_hosts_loads (d : inventory_dir) hosts :
  inv_writable d = true ->
  load_yaml_or_empty (inv_hosts_file (save_hosts_inventory d hosts)) = inr (ODict hosts) /\
  inv_groups_file (save_hosts_inventory d hosts) = inv_groups_file d /\
  inv_defaults_file (save_hosts_inventory d hosts) = inv_defaults_file d.
Proof. intros Hw. unfold save_hosts_inventory. by rewrite Hw. Qed.

(** X13: when hosts.yaml holds a mapping (or is missing or empty), the
    other two inventory files load and hosts.yaml can be written,
    [add_device] returns True and the inventory read back afterwards has
    the new entry under the device name, every other host unchanged. *)
Theorem add_device_then_lookup (d : inventory_dir) (hosts : list (string * host_value))
  (device_name hostname : string) (groups : list string) (vendor device_type : string)
  (kwargs : list (string * string)) :
  load_yaml_or_empty (inv_hosts_file d) = inr (ODict hosts) ->
  inv_groups_file d <> Some YBroken -> inv_defaults_file d <> Some YBroken ->
  inv_writable d = true ->
  let (ok, d') := add_device d device_name hostname groups vendor device_type kwargs in
  ok = true /\
  exists hosts',
    i_hosts (get_inventory d') = ODict hosts' /\
    dict_lookup hosts' device_name =
      Some (Some (new_host hostname groups vendor device_type kwargs)) /\
    forall k, k <> device_name -> dict_lookup hosts' k = dict_lookup hosts k.
Proof.
  intros Hh Hg Hd Hw. unfold add_device.
  rewrite (get_inventory_hosts d hosts Hh Hg Hd).
  split; [reflexivity|].
  eexists. destruct (save_hosts_loads d
    (dict_setitem hosts device_name (Some (new_host hostname groups vendor device_type kwargs))) Hw)
    as (H1 & H2 & H3).
  split; [apply get_inventory_hosts; [exact H1 | by rewrite H2 | by rewrite H3]|].
  split; [apply dict_lookup_setitem_eq|].
  intros k Hk. by apply dict_lookup_setitem_ne.
Qed.


(** X15: when any of hosts.yaml, groups.yaml or defaults.yaml fails to
    load, [get_inventory] falls back to an empty inventory, so
    [add_device] returns True and rewrites hosts.yaml with the new device
    as its only host, dropping every host it had. *)
Theorem add_device_after_load_error_drops_hosts (d : inventory_dir)
  (device_name hostname : string) (groups : list string) (vendor device_type : string)
  (kwargs : list (string * string)) :
  inv_hosts_file d = Some YBroken \/ inv_groups_file d = Some YBroken \/
  inv_defaults_file d = Some YBroken ->
  inv_writable d = true ->
  exists d',
    add_device d device_name hostname groups vendor device_type kwargs = (true, d') /\
    inv_hosts_file d' =
      Some (YMapping [(device_name, Some (new_host hostname groups vendor device_type kwargs))]).
Proof.
  intros Hb Hw. unfold add_device. rewrite (get_inventory_broken d Hb). simpl.
  eexists. split; [reflexivity|]. unfold save_hosts_inventory. by rewrite Hw.
Qed.

(** X16: with the inventory loading and hosts.yaml writable,
    [remove_device] returns True exactly when the device is listed;
    afterwards the device is absent and every other host keeps its
    entry. *)
Theorem remove_device_then_lookup (d : inventory_dir) (hosts : list (string * host_value))
  (device_name : string) :
  load_yaml_or_empty (inv_hosts_file d) = inr (ODict hosts) ->
  inv_groups_file d <> Some YBroken -> inv_defaults_file d <> Some YBroken ->
  inv_writable d = true -> NoDup hosts.*1 ->
  let (ok, d') := remove_device d device_name in
  (ok = true <-> dict_lookup hosts device_name <> None) /\
  exists hosts',
    i_hosts (get_inventory d') = ODict hosts' /\
    dict_lookup hosts' device_name = None /\
    forall k, k <> device_name -> dict_lookup hosts' k = dict_lookup hosts k.
Proof.
  intros Hh Hg Hd Hw Hnd. unfold remove_device.
  rewrite (get_inventory_hosts d hosts Hh Hg Hd).
  destruct (dict_contains hosts device_name) eqn:Hc.
  - split; [split; [intros _; by apply dict_contains_lookup | reflexivity]|].
    destruct (save_hosts_loads d (dict_delitem hosts device_name) Hw) as (H1 & H2 & H3).
    eexists. split; [apply get_inventory_hosts; [exact H1 | by rewrite H2 | by rewrite H3]|].
    split; [by apply dict_lookup_delitem_eq|].
    intros k Hk. by apply dict_lookup_delitem_ne.
  - split.
    + split; [discriminate|]. intros H. apply dict_contains_lookup in H. congruence.
    + exists hosts. split; [by apply get_inventory_hosts|]. split; [|done].
      unfold dict_contains in Hc. by destruct (dict_lookup hosts device_name).
Qed.

(** X17: adding a device that is not listed and then removing it
    returns True and leaves hosts.yaml holding the original hosts, in
    their original order. *)
Theorem add_then_remove_device (d : inventory_dir) (hosts : list (string * host_value))
  (device_name hostname : string) (groups : list string) (vendor device_type : string)
  (kwargs : list (string * string)) :
  load_yaml_or_empty (inv_hosts_file d) = inr (ODict hosts) ->
  inv_groups_file d <> Some YBroken -> inv_defaults_file d <> Some YBroken ->
  inv_writable d = true ->
  dict_lookup hosts device_name = None ->
  remove_device (snd (add_device d device_name hostname groups vendor device_type kwargs))
    device_name =
  (true, {| inv_hosts_file := Some (YMapping hosts); inv_groups_file := inv_groups_file d;
            inv_defaults_file := inv_defaults_file d; inv_writable := true |}).
Proof.
  intros Hh Hg Hd Hw Hn. unfold add_device.
  rewrite (get_inventory_hosts d hosts Hh Hg Hd). simpl.
  set (v := Some (new_host hostname groups vendor device_type kwargs)).
  destruct (save_hosts_loads d (dict_setitem hosts device_name v) Hw) as (H1 & H2 & H3).
  unfold remove_device.
  rewrite (get_inventory_hosts _ _ H1); [| rewrite H2; exact Hg | rewrite H3; exact Hd].
  unfold dict_contains. rewrite dict_lookup_setitem_eq.
  rewrite dict_delitem_setitem_fresh by exact Hn.
  unfold save_hosts_inventory. rewrite Hw. simpl. reflexivity.
Qed.







Lemma item_strings_map_IStr (l : list string) : item_strings (map IStr l) = l.
Proof. induction l as [|x l IH]; simpl; [reflexivity | by rewrite IH]. Qed.

Lemma item_strings_map_IOther (bs : list nat) :
  item_strings (map (fun n => IOther (pretty n)) bs) = [].
Proof. by induction bs. Qed.

Lemma item_strings_In (g : string) (items : list group_item) :
  In g (item_strings items) <-> In (IStr g) items.
Proof.
  induction items as [|[s|r|tn] items IH]; simpl; [tauto| | |]; rewrite IH; [|split|split].
  - split; intros [H|H]; auto; left; congruence.
  - intros H; auto.
  - intros [H|H]; [discriminate | exact H].
  - intros H; auto.
  - intros [H|H]; [discriminate | exact H].
Qed.

Lemma In_map_IStr (g : string) (l : list string) : In (IStr g) (map IStr l) <-> In g l.
Proof.
  rewrite in_map_iff. split.
  - intros (x & Hx & Hin). injection Hx as ->. exact Hin.
  - intros H. by exists g.
Qed.

Lemma existsb_item_is_In (g : string) (items : list group_item) :
  existsb (item_is g) items = true <-> In (IStr g) items.
Proof.
  rewrite existsb_exists. split.
  - intros ([s|r|tn] & Hx & Heq); simpl in Heq; try discriminate.
    apply String.eqb_eq in Heq. by subst.
  - intros H. exists (IStr g). split; [exact H | apply String.eqb_refl].
Qed.

Lemma update_items_strs (items : list group_item) (acc : group_set) :
  forallb is_str_item items = true ->
  update_items items acc = inr (acc.1 ∪ list_to_set (item_strings items), acc.2).
Proof.
  revert acc. induction items as [|[s|r|tn] items IH]; intros [a o] Hs; simpl in Hs |- *.
  - do 2 f_equal. set_solver.
  - rewrite IH by exact Hs. simpl. do 2 f_equal. set_solver.
  - discriminate.
  - discriminate.
Qed.

Lemma update_items_inr (items : list group_item) (acc acc' : group_set) :
  update_items items acc = inr acc' ->
  acc'.1 = acc.1 ∪ list_to_set (item_strings items) /\
  (forall r, In r acc.2 \/ In (IOther r) items -> In r acc'.2).
Proof.
  revert acc. induction items as [|[s|r0|tn] items IH]; intros acc H; cbn [update_items] in H.
  - injection H as <-. simpl. split; [set_solver|]. intros r [Hr|[]]; exact Hr.
  - destruct (IH _ H) as [H1 H2]. simpl in H1. split; [rewrite H1; simpl; set_solver|].
    intros r [Hr|[Hr|Hr]]; [apply H2; by left | discriminate | apply H2; by right].
  - destruct (IH _ H) as [H1 H2]. simpl in H1. split; [exact H1|].
    intros r [Hr|[Hr|Hr]]; apply H2; simpl.
    + left. apply in_or_app. by left.
    + injection Hr as <-. left. apply in_or_app. right. by left.
    + by right.
  - discriminate.
Qed.

Lemma update_items_succeeds (items : list group_item) (acc : group_set) :
  forallb is_hashable_item items = true -> exists acc', update_items items acc = inr acc'.
Proof.
  revert acc. induction items as [|[s|r|tn] items IH]; intros acc Hh; simpl in Hh |- *; eauto.
  discriminate.
Qed.

Lemma forallb_map_hashable {A} (f : A -> group_item) (l : list A) :
  (forall x, is_hashable_item (f x) = true) -> forallb is_hashable_item (map f l) = true.
Proof. intros Hf. induction l as [|x l IH]; simpl; [reflexivity | by rewrite Hf, IH]. Qed.

Lemma forallb_map_IStr (l : list string) : forallb is_str_item (map IStr l) = true.
Proof. induction l as [|x l IH]; simpl; [reflexivity | exact IH]. Qed.

Lemma collect_groups_ok (hosts : list (string * host_value)) (acc : group_set) :
  forallb (fun p => host_groups_strings (snd p)) hosts = true ->
  collect_groups hosts acc = inr (acc.1 ∪ list_to_set (flat_map host_group_names hosts), acc.2).
Proof.
  revert acc. induction hosts as [|[n [e|]] hosts IH]; intros acc Hr.
  - destruct acc as [a o]. simpl. do 2 f_equal. set_solver.
  - simpl in Hr. apply andb_prop in Hr as [He Hr]. cbn [collect_groups].
    assert (Hu : update_groups (he_groups e) acc =
                 inr (acc.1 ∪ list_to_set (host_group_names (n, Some e)), acc.2)).
    { unfold host_group_names. simpl.
      destruct (he_groups e) as [| |tn|s|items|bs]; simpl in He |- *; try discriminate.
      - destruct acc as [a o]. simpl. do 2 f_equal. set_solver.
      - rewrite update_items_strs by apply forallb_map_IStr.
        by rewrite item_strings_map_IStr.
      - by rewrite update_items_strs by exact He. }
    rewrite Hu, IH by exact Hr. simpl. do 2 f_equal.
    change (flat_map host_group_names ((n, Some e) :: hosts))
      with (host_group_names (n, Some e) ++ flat_map host_group_names hosts)%list.
    rewrite list_to_set_app_L. set_solver.
  - discriminate.
Qed.

Lemma collect_groups_inr (hosts : list (string * host_value)) (acc acc' : group_set) :
  collect_groups hosts acc = inr acc' ->
  acc'.1 = acc.1 ∪ list_to_set (flat_map host_group_names hosts) /\
  (forall r, In r acc.2 \/
     (exists n e items, In (n, Some e) hosts /\ he_groups e = GItems items /\
                        In (IOther r) items) ->
   In r acc'.2).
Proof.
  revert acc. induction hosts as [|[n [e|]] hosts IH]; intros acc H; cbn [collect_groups] in H.
  - injection H as <-. simpl. split; [set_solver|].
    intros r [Hr|(? & ? & ? & [] & _)]. exact Hr.
  - destruct (update_groups (he_groups e) acc) as [err|acc1] eqn:Hu; [discriminate|].
    destruct (IH _ H) as [H1 H2].
    assert (Hu' : acc1.1 = acc.1 ∪ list_to_set (host_group_names (n, Some e)) /\
                  forall r, In r acc.2 \/
                    (exists items, he_groups e = GItems items /\ In (IOther r) items) ->
                  In r acc1.2).
    { unfold host_group_names. simpl.
      destruct (he_groups e) as [| |tn|s|items|bs]; simpl in Hu; try discriminate.
      - injection Hu as <-. split; [set_solver|].
        intros r [Hr|(? & ? & _)]; [exact Hr | discriminate].
      - apply update_items_inr in Hu as [Hu1 Hu2]. rewrite item_strings_map_IStr in Hu1.
        split; [exact Hu1|]. intros r [Hr|(? & ? & _)]; [apply Hu2; by left | discriminate].
      - apply update_items_inr in Hu as [Hu1 Hu2]. split; [exact Hu1|].
        intros r [Hr|(? & Hx & Hr)]; apply Hu2; [by left | injection Hx as <-; by right].
      - apply update_items_inr in Hu as [Hu1 Hu2]. rewrite item_strings_map_IOther in Hu1.
        split; [exact Hu1|]. intros r [Hr|(? & ? & _)]; [apply Hu2; by left | discriminate]. }
    destruct Hu' as [Hu1 Hu2]. split.
    + rewrite H1, Hu1.
      change (flat_map host_group_names ((n, Some e) :: hosts))
        with (host_group_names (n, Some e) ++ flat_map host_group_names hosts)%list.
      rewrite list_to_set_app_L. set_solver.
    + intros r [Hr|(n' & e' & items & [Heq|Hin] & Hg & Hr)].
      * apply H2. left. apply Hu2. by left.
      * injection Heq as -> ->. apply H2. left. apply Hu2. right. exists items. by split.
      * apply H2. right. exists n', e', items. by repeat split.
  - discriminate.
Qed.

Lemma collect_groups_succeeds (hosts : list (string * host_value)) (acc : group_set) :
  forallb (fun p => host_groups_hashable (snd p)) hosts = true ->
  exists acc', collect_groups hosts acc = inr acc'.
Proof.
  revert acc. induction hosts as [|[n [e|]] hosts IH]; intros acc Hh; [eauto| |discriminate].
  simpl in Hh. apply andb_prop in Hh as [He Hh]. cbn [collect_groups].
  assert (Hu : exists acc1, update_groups (he_groups e) acc = inr acc1).
  { destruct (he_groups e) as [| |tn|s|items|bs]; simpl in He |- *; try discriminate.
    - eauto.
    - apply update_items_succeeds, forallb_map_hashable. reflexivity.
    - by apply update_items_succeeds.
    - apply update_items_succeeds, forallb_map_hashable. reflexivity. }
  destruct Hu as [acc1 ->]. by apply IH.
Qed.

Lemma collect_groups_raises (hosts : list (string * host_value)) (acc : group_set) :
  existsb (fun p => negb (host_groups_readable (snd p))) hosts = true ->
  exists err, collect_groups hosts acc = inl err.
Proof.
  revert acc. induction hosts as [|[n [e|]] hosts IH]; intros acc Hx; cbn [collect_groups].
  - discriminate.
  - destruct (update_groups (he_groups e) acc) as [err|acc'] eqn:Hu; [eauto|].
    apply IH. simpl in Hx. unfold host_groups_readable in Hx.
    destruct (he_groups e); simpl in Hx, Hu; try discriminate; exact Hx.
  - eauto.
Qed.

Lemma strings_searchable (v : host_value) :
  host_groups_strings v = true -> host_groups_searchable v = true.
Proof. destruct v as [e|]; simpl; [|done]. by destruct (he_groups e). Qed.

Lemma forallb_strings_searchable (hosts : list (string * host_value)) :
  forallb (fun p => host_groups_strings (snd p)) hosts = true ->
  forallb (fun p => host_groups_searchable (snd p)) hosts = true.
Proof.
  rewrite !forallb_forall. intros H p Hp. apply strings_searchable, H, Hp.
Qed.

Lemma devices_loop_ok (g : string) (hosts : list (string * host_value)) (acc : list string) :
  forallb (fun p => host_groups_searchable (snd p)) hosts = true ->
  devices_loop g hosts acc =
  inr (acc ++ (List.filter (fun p => match snd p with
                                    | Some e => match in_groups g (he_groups e) with
                                                | inr b => b | inl _ => false end
                                    | None => false end) hosts).*1)%list.
Proof.
  revert acc. induction hosts as [|[n [e|]] hosts IH]; intros acc Hr; simpl in Hr |- *.
  - by rewrite app_nil_r.
  - apply andb_prop in Hr as [He Hr].
    destruct (he_groups e) as [| |tn|s|items|bs]; try discriminate He; simpl.
    + by rewrite IH.
    + destruct (py_contains g s); rewrite IH by exact Hr; [|reflexivity].
      by rewrite <- app_assoc.
    + destruct (existsb (item_is g) items); rewrite IH by exact Hr; [|reflexivity].
      by rewrite <- app_assoc.
  - discriminate.
Qed.

Lemma devices_loop_raises (g : string) (hosts : list (string * host_value)) (acc : list string) :
  existsb (fun p => negb (host_groups_searchable (snd p))) hosts = true ->
  exists err, devices_loop g hosts acc = inl err.
Proof.
  revert acc. induction hosts as [|[n [e|]] hosts IH]; intros acc Hx; simpl in Hx |- *.
  - discriminate.
  - destruct (he_groups e) as [| |tn|s|items|bs]; simpl in Hx |- *; eauto.
    + destruct (py_contains g s); eauto.
    + destruct (existsb (item_is g) items); eauto.
  - eauto.
Qed.

Lemma unreadable_unsearchable (hosts : list (string * host_value)) :
  existsb (fun p => negb (host_groups_readable (snd p))) hosts = true ->
  existsb (fun p => negb (host_groups_searchable (snd p))) hosts = true.
Proof.
  rewrite !existsb_exists. intros ([n v] & Hin & Hv). exists (n, v). split; [exact Hin|].
  simpl in *. destruct v as [e|]; [|reflexivity]. simpl in *.
  by destruct (he_groups e).
Qed.

Lemma py_prefix_refl (s : string) : String.prefix s s = true.
Proof.
  induction s as [|c s IH]; [reflexivity|]. simpl.
  destruct (ascii_dec c c) as [_|Hc]; [exact IH | congruence].
Qed.

Lemma py_contains_refl (s : string) : py_contains s s = true.
Proof. destruct s as [|c s]; [reflexivity|]. cbn [py_contains]. by rewrite py_prefix_refl. Qed.

Lemma string_chars_length (s g : string) :
  In g (string_chars s) -> String.length g = 1%nat.
Proof.
  induction s as [|c s IH]; simpl; [tauto|]. intros [<-|H]; [reflexivity | auto].
Qed.

Lemma get_device_groups_strings (sort_others : list string -> exc (list string))
  (d : inventory_dir) hosts :
  i_hosts (get_inventory d) = ODict hosts ->
  forallb (fun p => host_groups_strings (snd p)) hosts = true ->
  get_device_groups sort_others d =
  map IStr (merge_sort String.le
              (elements (list_to_set (flat_map host_group_names hosts) : gset string))).
Proof.
  intros Hh Hr. unfold get_device_groups. rewrite Hh, collect_groups_ok by exact Hr.
  simpl. by rewrite (left_id_L ∅ (∪)).
Qed.

Lemma in_get_device_groups (sort_others : list string -> exc (list string))
  (d : inventory_dir) hosts :
  i_hosts (get_inventory d) = ODict hosts ->
  forallb (fun p => host_groups_strings (snd p)) hosts = true ->
  forall g, In (IStr g) (get_device_groups sort_others d) <->
            In g (flat_map host_group_names hosts).
Proof.
  intros Hh Hr g. rewrite (get_device_groups_strings sort_others d hosts Hh Hr), In_map_IStr.
  rewrite <- !list_elem_of_In, (merge_sort_Permutation String.le), elem_of_elements.
  set_solver.
Qed.

Lemma in_get_devices_by_group (d : inventory_dir) hosts g :
  i_hosts (get_inventory d) = ODict hosts ->
  forallb (fun p => host_groups_searchable (snd p)) hosts = true ->
  forall n, In n (get_devices_by_group d g) <->
  exists e, In (n, Some e) hosts /\
    ((exists items, he_groups e = GItems items /\ In (IStr g) items) \/
     (exists s, he_groups e = GStr s /\ py_contains g s = true)).
Proof.
  intros Hh Hr n. unfold get_devices_by_group. rewrite Hh, devices_loop_ok by exact Hr.
  simpl. rewrite in_map_iff. split.
  - intros ([n' v] & <- & Hin). apply filter_In in Hin as [Hin Hb]. simpl in Hb |- *.
    destruct v as [e|]; [|discriminate]. exists e. split; [exact Hin|].
    destruct (he_groups e) as [| |tn|s|items|bs]; simpl in Hb; try discriminate.
    + right. exists s. by split.
    + left. exists items. split; [reflexivity|]. by apply existsb_item_is_In.
  - intros (e & Hin & [(items & Hl & Hg)|(s & Hs & Hg)]); exists (n, Some e);
      (split; [reflexivity|]); apply filter_In; (split; [exact Hin|]); simpl.
    + rewrite Hl. simpl. by apply existsb_item_is_In.
    + rewrite Hs. exact Hg.
Qed.

Lemma filter_fst_sublist {A B} (f : A * B -> bool) (l : list (A * B)) :
  (List.filter f l).*1 `sublist_of` l.*1.
Proof.
  induction l as [|x l IH]; simpl; [constructor|].
  destruct (f x); simpl; [by apply sublist_skip | by apply sublist_cons].
Qed.

Lemma get_devices_by_group_sublist (d : inventory_dir) hosts g :
  i_hosts (get_inventory d) = ODict hosts ->
  forallb (fun p => host_groups_searchable (snd p)) hosts = true ->
  get_devices_by_group d g `sublist_of` hosts.*1.
Proof.
  intros Hh Hr. unfold get_devices_by_group. rewrite Hh, devices_loop_ok by exact Hr.
  simpl. apply filter_fst_sublist.
Qed.

(** X18: when every host is a mapping whose [groups] is absent, a
    string, or a collection whose items are all strings (and the
    inventory loads), [get_device_groups] returns strings only, sorted
    and without duplicates, exactly the group names of the hosts'
    collections; a [groups] value written as a single string contributes
    its characters. *)
Theorem get_device_groups_sorted (sort_others : list string -> exc (list string))
  (d : inventory_dir) (hosts : list (string * host_value)) :
  load_yaml_or_empty (inv_hosts_file d) = inr (ODict hosts) ->
  inv_groups_file d <> Some YBroken -> inv_defaults_file d <> Some YBroken ->
  forallb (fun p => host_groups_strings (snd p)) hosts = true ->
  exists gs, get_device_groups sort_others d = map IStr gs /\
    Sorted String.le gs /\ NoDup gs /\
    forall g, In g gs <->
      exists n e, In (n, Some e) hosts /\
        ((exists items, he_groups e = GItems items /\ In (IStr g) items) \/
         (exists s, he_groups e = GStr s /\ In g (string_chars s))).
Proof.
  intros Hh Hg Hd Hr. pose proof (get_inventory_hosts d hosts Hh Hg Hd) as Hi.
  eexists. split; [exact (get_device_groups_strings sort_others d hosts Hi Hr)|].
  split; [apply Sorted_merge_sort, _|]. split.
  - rewrite (merge_sort_Permutation String.le). apply NoDup_elements.
  - intros g. rewrite <- list_elem_of_In, (merge_sort_Permutation String.le), elem_of_elements.
    rewrite elem_of_list_to_set, list_elem_of_In, in_flat_map. split.
    + intros ([n [e|]] & Hin & Hg'); unfold host_group_names in Hg'; simpl in Hg'; [|done].
      exists n, e. split; [exact Hin|].
      destruct (he_groups e) as [| |tn|s|items|bs]; try done.
      * right. eauto.
      * left. exists items. split; [reflexivity|]. by apply item_strings_In.
    + intros (n & e & Hin & [(items & Hl & Hg')|(s & Hs & Hg')]); exists (n, Some e);
        unfold host_group_names; simpl; [rewrite Hl|rewrite Hs]; split; auto.
      by apply item_strings_In.
Qed.

(** X19: when every host is a mapping whose [groups] is absent, a
    string or a collection (and the inventory loads),
    [get_devices_by_group] returns host names in the order of
    hosts.yaml, exactly those whose [groups] collection contains the
    group name as a string, or whose [groups] string contains it as a
    substring. *)
Theorem get_devices_by_group_members (d : inventory_dir) (hosts : list (string * host_value))
  (group_name : string) :
  load_yaml_or_empty (inv_hosts_file d) = inr (ODict hosts) ->
  inv_groups_file d <> Some YBroken -> inv_defaults_file d <> Some YBroken ->
  forallb (fun p => host_groups_searchable (snd p)) hosts = true ->
  get_devices_by_group d group_name `sublist_of` hosts.*1 /\
  forall n, In n (get_devices_by_group d group_name) <->
    exists e, In (n, Some e) hosts /\
      ((exists items, he_groups e = GItems items /\ In (IStr group_name) items) \/
       (exists s, he_groups e = GStr s /\ py_contains group_name s = true)).
Proof.
  intros Hh Hg Hd Hr. pose proof (get_inventory_hosts d hosts Hh Hg Hd) as Hi.
  split; [by apply get_devices_by_group_sublist | by apply in_get_devices_by_group].
Qed.

(** X20: when every host is a mapping whose [groups] is absent or a
    collection of strings (and the inventory loads), a group is listed by
    [get_device_groups] exactly when [get_devices_by_group] returns a
    non-empty list for it. *)
Theorem device_groups_agree (sort_others : list string -> exc (list string))
  (d : inventory_dir) (hosts : list (string * host_value)) (group_name : string) :
  load_yaml_or_empty (inv_hosts_file d) = inr (ODict hosts) ->
  inv_groups_file d <> Some YBroken -> inv_defaults_file d <> Some YBroken ->
  forallb (fun p => match snd p with
                    | Some e => match he_groups e with
                                | GAbsent => true
                                | GItems items => forallb is_str_item items
                                | _ => false end
                    | None => false end) hosts = true ->
  In (IStr group_name) (get_device_groups sort_others d) <->
  get_devices_by_group d group_name <> [].
Proof.
  intros Hh Hg Hd Hl. pose proof (get_inventory_hosts d hosts Hh Hg Hd) as Hi.
  assert (Hs : forallb (fun p => host_groups_strings (snd p)) hosts = true).
  { apply forallb_forall. intros [n v] Hin. eapply forallb_forall in Hl; [|exact Hin].
    simpl in Hl |- *. destruct v as [e|]; [|discriminate]. unfold host_groups_strings.
    destruct (he_groups e); simpl in *; congruence. }
  pose proof (forallb_strings_searchable hosts Hs) as Hr.
  rewrite (in_get_device_groups sort_others d hosts Hi Hs), in_flat_map. split.
  - intros ([n [e|]] & Hin & Hg'); unfold host_group_names in Hg'; simpl in Hg'; [|done].
    intros Hdev.
    assert (Hn : In n (get_devices_by_group d group_name)).
    { apply (in_get_devices_by_group d hosts group_name Hi Hr). exists e. split; [exact Hin|].
      eapply forallb_forall in Hl; [|exact Hin]. simpl in Hl.
      destruct (he_groups e) as [| |tn|s|items|bs]; simpl in Hg', Hl; try tauto;
        try discriminate.
      left. exists items. split; [reflexivity|]. by apply item_strings_In. }
    rewrite Hdev in Hn. exact Hn.
  - destruct (get_devices_by_group d group_name) as [|n l] eqn:Hdev; [done|]. intros _.
    assert (Hn : In n (get_devices_by_group d group_name)) by (rewrite Hdev; left; reflexivity).
    apply (in_get_devices_by_group d hosts group_name Hi Hr) in Hn
      as (e & Hin & [(items & Hl' & Hg')|(s & Hs' & _)]).
    + exists (n, Some e). unfold host_group_names. simpl. rewrite Hl'.
      split; [exact Hin | by apply item_strings_In].
    + eapply forallb_forall in Hl; [|exact Hin]. simpl in Hl. by rewrite Hs' in Hl.
Qed.

(** X21: a single host that is not a mapping (null, a string) or whose
    [groups] is null or a scalar that is not iterable makes
    [get_device_groups] return [] and [get_devices_by_group] return []
    for every group. *)
Theorem unreadable_host_empties_group_queries
  (sort_others : list string -> exc (list string)) (d : inventory_dir)
  (hosts : list (string * host_value)) :
  load_yaml_or_empty (inv_hosts_file d) = inr (ODict hosts) ->
  inv_groups_file d <> Some YBroken -> inv_defaults_file d <> Some YBroken ->
  existsb (fun p => negb (host_groups_readable (snd p))) hosts = true ->
  get_device_groups sort_others d = [] /\
  forall group_name, get_devices_by_group d group_name = [].
Proof.
  intros Hh Hg Hd Hx. pose proof (get_inventory_hosts d hosts Hh Hg Hd) as Hi.
  unfold get_device_groups, get_devices_by_group. rewrite Hi. split.
  - by destruct (collect_groups_raises hosts (∅, []) Hx) as [err ->].
  - intros g. by destruct (devices_loop_raises g hosts [] (unreadable_unsearchable hosts Hx))
      as [err ->].
Qed.

(** X22: when every host is a mapping whose [groups] is absent, a string
    or a collection (and the inventory loads), a host whose [groups] is
    written as a string [s] of two or more characters (not a list) is
    returned by [get_devices_by_group s], while [get_device_groups] does
    not list [s] unless some host's [groups] collection holds it. *)
Theorem string_groups_disagree (sort_others : list string -> exc (list string))
  (d : inventory_dir) (hosts : list (string * host_value))
  (n s : string) (e : host_entry) :
  load_yaml_or_empty (inv_hosts_file d) = inr (ODict hosts) ->
  inv_groups_file d <> Some YBroken -> inv_defaults_file d <> Some YBroken ->
  forallb (fun p => host_groups_searchable (snd p)) hosts = true ->
  In (n, Some e) hosts -> he_groups e = GStr s -> (2 <= String.length s)%nat ->
  forallb (fun p => match snd p with
                    | Some e' => match he_groups e' with
                                 | GItems items => negb (existsb (item_is s) items)
                                 | _ => true end
                    | None => true end) hosts = true ->
  In n (get_devices_by_group d s) /\ ~ In (IStr s) (get_device_groups sort_others d).
Proof.
  intros Hh Hg Hd Hr Hin He Hlen Hnl. pose proof (get_inventory_hosts d hosts Hh Hg Hd) as Hi.
  split.
  - apply (in_get_devices_by_group d hosts s Hi Hr). exists e. split; [exact Hin|].
    right. exists s. split; [exact He | apply py_contains_refl].
  - unfold get_device_groups. rewrite Hi.
    destruct (collect_groups hosts (∅, [])) as [err|[strs others]] eqn:Hc; [simpl; tauto|].
    apply collect_groups_inr in Hc as [Hc1 _]. simpl in Hc1.
    assert (Hns : s ∉ strs).
    { rewrite Hc1. intros Hs. apply elem_of_union in Hs as [Hs|Hs]; [set_solver|].
      apply elem_of_list_to_set, list_elem_of_In, in_flat_map in Hs
        as ([n' [e'|]] & Hin' & Hs'); unfold host_group_names in Hs'; simpl in Hs'; [|done].
      destruct (he_groups e') as [| |tn|s'|items|bs] eqn:He'; simpl in Hs'; try tauto.
      - apply string_chars_length in Hs'. lia.
      - eapply forallb_forall in Hnl; [|exact Hin']. simpl in Hnl. rewrite He' in Hnl.
        apply negb_true_iff in Hnl. apply item_strings_In, existsb_item_is_In in Hs'.
        congruence. }
    destruct others as [|o others].
    + intros Hin'. apply In_map_IStr, list_elem_of_In in Hin'.
      rewrite (merge_sort_Permutation String.le), elem_of_elements in Hin'.
      exact (Hns Hin').
    + destruct (bool_decide (strs = ∅)); [|simpl; tauto].
      destruct (sort_others (o :: others)); [simpl; tauto|].
      intros Hin'. apply in_map_iff in Hin' as (? & Heq & _). discriminate.
Qed.

Lemma dict_setitem_fresh {V} (d : list (string * V)) k v :
  dict_lookup d k = None -> dict_setitem d k v = (d ++ [(k, v)])%list.
Proof.
  induction d as [|[k0 v0] d IH]; simpl; [reflexivity|].
  destruct (String.eqb_spec k k0); [discriminate|]. intros H. by rewrite IH.
Qed.

(** X23: when the inventory loads, hosts.yaml is writable and every host
    is a mapping whose [groups] is absent, a string or a collection of
    strings, then after [add_device] of a device that is not listed yet,
    [get_devices_by_group g] is the old list with the device appended
    when [g] is one of its groups and unchanged otherwise, and
    [get_device_groups] gains exactly the device's groups. *)
Theorem add_device_then_group_queries (sort_others : list string -> exc (list string))
  (d : inventory_dir) (hosts : list (string * host_value))
  (device_name hostname : string) (groups : list string) (vendor device_type : string)
  (kwargs : list (string * string)) (group_name : string) :
  load_yaml_or_empty (inv_hosts_file d) = inr (ODict hosts) ->
  inv_groups_file d <> Some YBroken -> inv_defaults_file d <> Some YBroken ->
  inv_writable d = true ->
  forallb (fun p => host_groups_strings (snd p)) hosts = true ->
  dict_lookup hosts device_name = None ->
  let d' := snd (add_device d device_name hostname groups vendor device_type kwargs) in
  get_devices_by_group d' group_name =
    (get_devices_by_group d group_name ++
     (if bool_decide (group_name ∈ groups) then [device_name] else []))%list /\
  (In (IStr group_name) (get_device_groups sort_others d') <->
   In (IStr group_name) (get_device_groups sort_others d) \/ In group_name groups).
Proof.
  intros Hh Hg Hd Hw Hr Hn d'.
  pose proof (get_inventory_hosts d hosts Hh Hg Hd) as Hi.
  set (v := Some (new_host hostname groups vendor device_type kwargs)).
  assert (Hi' : i_hosts (get_inventory d') = ODict (hosts ++ [(device_name, v)])%list).
  { subst d'. unfold add_device. rewrite Hi. simpl. fold v.
    destruct (save_hosts_loads d (dict_setitem hosts device_name v) Hw) as (H1 & H2 & H3).
    rewrite <- dict_setitem_fresh by exact Hn.
    apply get_inventory_hosts; [exact H1 | by rewrite H2 | by rewrite H3]. }
  assert (Hr' : forallb (fun p => host_groups_strings (snd p))
                  (hosts ++ [(device_name, v)])%list = true).
  { rewrite forallb_app, Hr. simpl. by rewrite forallb_map_IStr. }
  split.
  - unfold get_devices_by_group.
    rewrite Hi', Hi, !devices_loop_ok
      by (apply forallb_strings_searchable; assumption).
    simpl. rewrite List.filter_app, fmap_app. f_equal. simpl.
    destruct (bool_decide_reflect (group_name ∈ groups)) as [Hin|Hnin].
    + apply list_elem_of_In, In_map_IStr, existsb_item_is_In in Hin. by rewrite Hin.
    + destruct (existsb (item_is group_name) (map IStr groups)) eqn:Hx; [|reflexivity].
      apply existsb_item_is_In, In_map_IStr, list_elem_of_In in Hx. contradiction.
  - rewrite (in_get_device_groups sort_others d' _ Hi' Hr'),
      (in_get_device_groups sort_others d _ Hi Hr).
    rewrite flat_map_app, in_app_iff.
    assert (Hv : flat_map host_group_names [(device_name, v)] = groups).
    { cbn. rewrite app_nil_r. apply item_strings_map_IStr. }
    by rewrite Hv.
Qed.

(** X26: when hosts' [groups] collections hold both a string [g] and a
    value of another type (a number, a boolean, a date), and every host's
    [groups] is absent, a string, [!!binary] or a collection of hashable
    values, [get_device_groups] returns [] ([sorted] cannot order a
    string against another type), while [get_devices_by_group g] still
    returns the host, provided no host's [groups] is [!!binary]. *)
Theorem mixed_groups_empty_device_groups (sort_others : list string -> exc (list string))
  (d : inventory_dir) (hosts : list (string * host_value))
  (n : string) (e : host_entry) (items : list group_item) (g : string)
  (n' : string) (e' : host_entry) (items' : list group_item) (r : string) :
  load_yaml_or_empty (inv_hosts_file d) = inr (ODict hosts) ->
  inv_groups_file d <> Some YBroken -> inv_defaults_file d <> Some YBroken ->
  forallb (fun p => host_groups_hashable (snd p)) hosts = true ->
  In (n, Some e) hosts -> he_groups e = GItems items -> In (IStr g) items ->
  In (n', Some e') hosts -> he_groups e' = GItems items' -> In (IOther r) items' ->
  get_device_groups sort_others d = [] /\
  (forallb (fun p => host_groups_searchable (snd p)) hosts = true ->
   In n (get_devices_by_group d g)).
Proof.
  intros Hh Hg Hd Hx Hin He Hgi Hin' He' Hri.
  pose proof (get_inventory_hosts d hosts Hh Hg Hd) as Hi. split.
  - unfold get_device_groups. rewrite Hi.
    destruct (collect_groups_succeeds hosts (∅, []) Hx) as [[strs others] Hc].
    rewrite Hc. apply collect_groups_inr in Hc as [Hc1 Hc2]. simpl in Hc1, Hc2.
    assert (Hgs : g ∈ strs).
    { rewrite Hc1. apply elem_of_union_r, elem_of_list_to_set, list_elem_of_In, in_flat_map.
      exists (n, Some e). split; [exact Hin|]. unfold host_group_names. simpl. rewrite He.
      by apply item_strings_In. }
    assert (Hro : In r others).
    { apply Hc2. right. eauto 10. }
    destruct others as [|o others]; [done|].
    rewrite bool_decide_false by set_solver. reflexivity.
  - intros Hr. apply (in_get_devices_by_group d hosts g Hi Hr). exists e.
    split; [exact Hin|]. left. eauto.
Qed.

(** ** Validation history *)




Lemma string_length_app (a b : string) :
  String.length (a +:+ b) = (String.length a + String.length b)%nat.
Proof.
  induction a as [|x a IH]; [reflexivity|].
  change (S (String.length (a +:+ b)) = S (String.length a + String.length b))%nat.
  by rewrite IH.
Qed.

Lemma prefix_app (a b : string) : String.prefix a (a +:+ b) = true.
Proof.
  induction a as [|x a IH]; [by destruct b|].
  change (String.prefix (String x a) (String x (a +:+ b)) = true). simpl.
  destruct (ascii_dec x x); [exact IH | congruence].
Qed.

Lemma substring_0_all (n : nat) (s : string) :
  (String.length s <= n)%nat -> String.substring 0 n s = s.
Proof.
  revert n. induction s as [|x s IH]; intros n Hn; [by destruct n|].
  destruct n as [|n]; simpl in Hn; [lia|]. simpl. f_equal. apply IH. lia.
Qed.

Lemma substring_app_r (a b : string) (m : nat) :
  (String.length b <= m)%nat ->
  String.substring (String.length a) m (a +:+ b) = b.
Proof.
  intros Hm. induction a as [|x a IH].
  - by apply substring_0_all.
  - exact IH.
Qed.

Lemma substring_app_l (a b : string) :
  String.substring 0 (String.length a) (a +:+ b) = a.
Proof.
  induction a as [|x a IH]; [by destruct b|].
  change (String x (String.substring 0 (String.length a) (a +:+ b)) = String x a).
  by rewrite IH.
Qed.

Lemma str_rfind_app (c : ascii) (a b : string) :
  str_rfind c b = None -> str_rfind c (a +:+ String c b) = Some (String.length a).
Proof.
  intros Hb. induction a as [|x a IH].
  - simpl. rewrite Hb. by rewrite Ascii.eqb_refl.
  - change (match str_rfind c (a +:+ String c b) with
            | Some i => Some (S i)
            | None => if Ascii.eqb c x then Some 0%nat else None end
            = Some (S (String.length a))).
    by rewrite IH.
Qed.

Lemma str_replace_absent (fuel : nat) (old new s : string) :
  py_contains old s = false -> str_replace_aux fuel old new s = s.
Proof.
  revert s. induction fuel as [|fuel IH]; intros s Hs; [reflexivity|].
  destruct s as [|c s]; [reflexivity|].
  simpl in Hs. apply orb_false_iff in Hs as [Hp Hs].
  simpl. rewrite Hp. f_equal. by apply IH.
Qed.

Lemma py_str_replace_prefix (old s : string) :
  old <> "" -> py_contains old s = false -> py_str_replace old "" (old +:+ s) = s.
Proof.
  intros Hold Hs. unfold py_str_replace.
  destruct old as [|c old']; [congruence|].
  change (str_replace_aux (S (String.length (old' +:+ s))) (String c old') ""
            (String c (old' +:+ s)) = s).
  cbn [str_replace_aux].
  change (String c (old' +:+ s)) with (String c old' +:+ s).
  rewrite prefix_app.
  rewrite substring_app_r by (rewrite string_length_app; simpl; lia).
  by apply str_replace_absent.
Qed.

Lemma path_stem_json (x : string) :
  x <> "" -> path_stem (x +:+ ".json") = x.
Proof.
  intros Hx. unfold path_stem. rewrite (str_rfind_app "."%char x "json") by reflexivity.
  rewrite string_length_app. simpl.
  destruct x as [|c x]; [congruence|]. simpl String.length.
  replace ((0 <? S (String.length x)) && (S (String.length x) <? S (String.length x) + 5 - 1))%nat
    with true by (symmetry; apply andb_true_iff; split; apply Nat.ltb_lt; lia).
  exact (substring_app_l (String c x) ".json").
Qed.

Lemma results_glob_name (ts : string) : results_glob (validation_results_file_name ts) = true.
Proof.
  unfold results_glob, validation_results_file_name.
  rewrite prefix_app, <- string_app_assoc, andb_true_l.
  apply andb_true_iff. split.
  - unfold str_endswith. rewrite string_length_app.
    replace (String.length ("validation_results_" +:+ ts) + String.length ".json"
             - String.length ".json")%nat
      with (String.length ("validation_results_" +:+ ts)) by lia.
    rewrite substring_app_r by reflexivity. apply String.eqb_refl.
  - apply Nat.leb_le. rewrite !string_length_app. simpl. lia.
Qed.

Lemma history_loop_ok {R} (json_load : string -> exc R) (dir : gmap string file_entry)
  (names : list string) (acc : list (history_entry R)) :
  (forall f, In f names -> exists s r, dir !! f = Some (Readable s) /\ json_load s = inr r) ->
  exists h, history_loop R json_load dir names acc = inr (acc ++ h)%list /\
    forall f s r, In f names -> dir !! f = Some (Readable s) -> json_load s = inr r ->
    In {| hist_timestamp := py_str_replace "validation_results_" "" (path_stem f);
          hist_results := r |} h.
Proof.
  revert acc. induction names as [|f names IH]; intros acc Hall; simpl.
  - exists []. rewrite app_nil_r. split; [reflexivity | intros ? ? ? []].
  - destruct (Hall f (or_introl eq_refl)) as (s & r & Hf & Hj).
    rewrite Hf. simpl. rewrite Hj.
    destruct (IH (acc ++ [{| hist_timestamp := py_str_replace "validation_results_" ""
                                                  (path_stem f);
                            hist_results := r |}])%list) as (h & Hh & Hin).
    { intros f' Hf'. apply Hall. by right. }
    eexists. rewrite Hh, <- app_assoc. split; [reflexivity|].
    intros f' s' r' [<-|Hf'] Hs' Hr'.
    + rewrite Hf in Hs'. injection Hs' as <-. rewrite Hj in Hr'. injection Hr' as <-.
      left. reflexivity.
    + right. eapply Hin; eauto.
Qed.

Lemma history_loop_raises {R} (json_load : string -> exc R) (dir : gmap string file_entry)
  (names : list string) (acc : list (history_entry R)) (f : string) :
  In f names ->
  (dir !! f = Some Unreadable \/
   exists s err, dir !! f = Some (Readable s) /\ json_load s = inl err) ->
  exists err, history_loop R json_load dir names acc = inl err.
Proof.
  revert acc. induction names as [|f' names IH]; intros acc Hin Hbad; [destruct Hin|].
  simpl. destruct (dir !! f') as [[s|]|] eqn:Hf'; simpl; eauto.
  destruct (json_load s) as [err|r] eqn:Hj; eauto.
  destruct Hin as [<-|Hin]; [|by apply IH].
  exfalso. destruct Hbad as [Hb|(s' & err & Hb & Hj')]; rewrite Hf' in Hb; [discriminate|].
  injection Hb as <-. congruence.
Qed.

Lemma history_names_iff (dir : gmap string file_entry) (f : string) :
  In f (reverse (merge_sort String.le (List.filter results_glob (map fst (map_to_list dir))))) <->
  results_glob f = true /\ exists e, dir !! f = Some e.
Proof.
  rewrite <- list_elem_of_In, elem_of_reverse, (merge_sort_Permutation String.le).
  rewrite list_elem_of_In, filter_In, <- list_elem_of_In.
  change (map fst (map_to_list dir)) with ((map_to_list dir).*1).
  rewrite list_elem_of_fmap. split.
  - intros ([[f' e] [-> Hin]] & Hg). split; [exact Hg|]. exists e.
    by apply elem_of_map_to_list.
  - intros (Hg & e & He). split; [|exact Hg]. exists (f, e). split; [reflexivity|].
    by apply elem_of_map_to_list.
Qed.

(** X24: once [_save_validation_results] has written the results of a
    run at [timestamp] (with [json.load] reading back [r] from the dump
    as a text-mode read returns it,
    and the timestamp not containing "validation_results_"),
    [get_validation_history] lists an entry with that timestamp and [r],
    provided every results file of the directory can be read and
    parsed. *)
Theorem save_then_validation_history (can_write : string -> bool)
  (dump : list validation_result -> string) (R : Type) (json_load : string -> exc R)
  (dir : gmap string file_entry) (timestamp : string) (results : list validation_result)
  (r : R) :
  can_write (validation_results_file_name timestamp) = true ->
  json_load (universal_newlines (dump results)) = inr r ->
  py_contains "validation_results_" timestamp = false ->
  (forall f e, dir !! f = Some e -> results_glob f = true ->
     exists s r', e = Readable s /\ json_load s = inr r') ->
  In {| hist_timestamp := timestamp; hist_results := r |}
     (get_validation_history R json_load
        (save_validation_results can_write dump dir timestamp results)).
Proof.
  intros Hw Hj Hts Hold.
  set (f0 := validation_results_file_name timestamp).
  assert (Hdir : save_validation_results can_write dump dir timestamp results =
                 <[f0 := Readable (universal_newlines (dump results))]> dir).
  { unfold save_validation_results, write_file. by rewrite Hw. }
  rewrite Hdir. set (dir' := <[f0 := Readable (universal_newlines (dump results))]> dir).
  unfold get_validation_history.
  destruct (history_loop_ok json_load dir'
              (reverse (merge_sort String.le (List.filter results_glob (map fst (map_to_list dir')))))
              []) as (h & Hh & Hin).
  { intros f Hf. apply history_names_iff in Hf as (Hg & e & He).
    subst dir'. destruct (String.eqb_spec f f0) as [->|Hne].
    - rewrite lookup_insert_eq in He. injection He as <-.
      exists (universal_newlines (dump results)), r. split; [apply lookup_insert_eq | exact Hj].
    - rewrite lookup_insert_ne in He by congruence.
      destruct (Hold f e He Hg) as (s & r' & -> & Hr').
      exists s, r'. split; [rewrite lookup_insert_ne by congruence; exact He | exact Hr']. }
  rewrite Hh. simpl.
  assert (Hstamp : py_str_replace "validation_results_" "" (path_stem f0) = timestamp).
  { subst f0. unfold validation_results_file_name. rewrite <- string_app_assoc.
    rewrite path_stem_json by (intros Hx; apply (f_equal String.length) in Hx;
                               rewrite string_length_app in Hx; simpl in Hx; lia).
    by apply py_str_replace_prefix. }
  rewrite <- Hstamp. apply (Hin f0 (universal_newlines (dump results)) r); [| |exact Hj].
  - apply history_names_iff. split; [apply results_glob_name|]. eexists.
    subst dir'. apply lookup_insert_eq.
  - subst dir'. apply lookup_insert_eq.
Qed.

(** X25: one results file matching validation_results_*.json that
    cannot be read or parsed makes [get_validation_history] return the
    empty history. *)
Theorem validation_history_all_or_nothing (R : Type) (json_load : string -> exc R)
  (dir : gmap string file_entry) (f : string) :
  results_glob f = true ->
  (dir !! f = Some Unreadable \/
   exists s err, dir !! f = Some (Readable s) /\ json_load s = inl err) ->
  get_validation_history R json_load dir = [].
Proof.
  intros Hg Hbad. unfold get_validation_history.
  destruct (history_loop_raises json_load dir
              (reverse (merge_sort String.le (List.filter results_glob (map fst (map_to_list dir)))))
              [] f) as [err ->]; [|exact Hbad|reflexivity].
  apply history_names_iff. split; [exact Hg|].
  destruct Hbad as [He|(s & err & He & _)]; eauto.
Qed.

(** ** Witnesses of the inventory and history properties *)

Lemma add_device_then_lookup_witness :
  let (ok, d') := add_device default_inventory_dir "fw-01" "10.0.0.1" ["firewalls"]
                    "fortinet" "fortios" [] in
  ok = true /\
  exists hosts',
    i_hosts (get_inventory d') = ODict hosts' /\
    dict_lookup hosts' "fw-01" =
      Some (Some (new_host "10.0.0.1" ["firewalls"] "fortinet" "fortios" [])) /\
    forall k, k <> "fw-01" -> dict_lookup hosts' k = dict_lookup default_hosts k.
Proof.
  apply (add_device_then_lookup default_inventory_dir default_hosts);
    [reflexivity | discriminate | discriminate | reflexivity].
Defined.


Lemma add_device_after_load_error_drops_hosts_witness :
  exists d',
    add_device (inventory_dir_of (Some (YMapping default_hosts)) (Some YBroken) true)
      "fw-01" "10.0.0.1" ["firewalls"] "fortinet" "fortios" [] = (true, d') /\
    inv_hosts_file d' =
      Some (YMapping [("fw-01", Some (new_host "10.0.0.1" ["firewalls"] "fortinet" "fortios" []))]).
Proof.
  apply add_device_after_load_error_drops_hosts; [right; left; reflexivity | reflexivity].
Defined.

Lemma remove_device_then_lookup_witness :
  let (ok, d') := remove_device default_inventory_dir "rtr-01" in
  (ok = true <-> dict_lookup default_hosts "rtr-01" <> None) /\
  exists hosts',
    i_hosts (get_inventory d') = ODict hosts' /\
    dict_lookup hosts' "rtr-01" = None /\
    forall k, k <> "rtr-01" -> dict_lookup hosts' k = dict_lookup default_hosts k.
Proof.
  apply (remove_device_then_lookup default_inventory_dir default_hosts);
    [reflexivity | discriminate | discriminate | reflexivity | apply (bool_decide_unpack (NoDup default_hosts.*1)); vm_compute; exact I].
Defined.

Lemma add_then_remove_device_witness :
  remove_device (snd (add_device default_inventory_dir "fw-01" "10.0.0.1" ["firewalls"]
                        "fortinet" "fortios" [])) "fw-01" =
  (true, {| inv_hosts_file := Some (YMapping default_hosts);
            inv_groups_file := inv_groups_file default_inventory_dir;
            inv_defaults_file := inv_defaults_file default_inventory_dir;
            inv_writable := true |}).
Proof.
  apply (add_then_remove_device default_inventory_dir default_hosts);
    [reflexivity | discriminate | discriminate | reflexivity | reflexivity].
Defined.

Lemma get_device_groups_sorted_witness :
  exists gs, get_device_groups (fun l => inr l) default_inventory_dir = map IStr gs /\
    Sorted String.le gs /\ NoDup gs /\
    forall g, In g gs <->
      exists n e, In (n, Some e) default_hosts /\
        ((exists items, he_groups e = GItems items /\ In (IStr g) items) \/
         (exists s, he_groups e = GStr s /\ In g (string_chars s))).
Proof.
  apply get_device_groups_sorted; [reflexivity | discriminate | discriminate | reflexivity].
Defined.

Lemma get_devices_by_group_members_witness :
  get_devices_by_group default_inventory_dir "cisco" `sublist_of` default_hosts.*1 /\
  forall n, In n (get_devices_by_group default_inventory_dir "cisco") <->
    exists e, In (n, Some e) default_hosts /\
      ((exists items, he_groups e = GItems items /\ In (IStr "cisco") items) \/
       (exists s, he_groups e = GStr s /\ py_contains "cisco" s = true)).
Proof.
  apply get_devices_by_group_members; [reflexivity | discriminate | discriminate | reflexivity].
Defined.

Lemma device_groups_agree_witness :
  In (IStr "routers") (get_device_groups (fun l => inr l) default_inventory_dir) <->
  get_devices_by_group default_inventory_dir "routers" <> [].
Proof.
  apply (device_groups_agree (fun l => inr l) default_inventory_dir default_hosts);
    [reflexivity | discriminate | discriminate | reflexivity].
Defined.

Lemma unreadable_host_empties_group_queries_witness :
  get_device_groups (fun l => inr l) (inventory_dir_of
    (Some (YMapping [("rtr-01", Some rtr_01); ("sw-01", None)])) None true) = [] /\
  forall group_name, get_devices_by_group (inventory_dir_of
    (Some (YMapping [("rtr-01", Some rtr_01); ("sw-01", None)])) None true) group_name = [].
Proof.
  apply (unreadable_host_empties_group_queries _ _ [("rtr-01", Some rtr_01); ("sw-01", None)]);
    [reflexivity | discriminate | discriminate | reflexivity].
Defined.

Lemma string_groups_disagree_witness :
  let core := {| he_hostname := Some "10.0.0.9"; he_groups := GStr "core";
                 he_data := None; he_other := [] |} in
  In "rtr-02" (get_devices_by_group (inventory_dir_of
     (Some (YMapping [("rtr-01", Some rtr_01); ("rtr-02", Some core)])) None true) "core") /\
  ~ In (IStr "core") (get_device_groups (fun l => inr l) (inventory_dir_of
     (Some (YMapping [("rtr-01", Some rtr_01); ("rtr-02", Some core)])) None true)).
Proof.
  intros core.
  apply (string_groups_disagree _ _ [("rtr-01", Some rtr_01); ("rtr-02", Some core)]
           "rtr-02" "core" core);
    [reflexivity | discriminate | discriminate | reflexivity | right; left; reflexivity
    | reflexivity | simpl; lia | reflexivity].
Defined.

Lemma add_device_then_group_queries_witness :
  let d' := snd (add_device default_inventory_dir "fw-01" "10.0.0.1" ["firewalls"; "cisco"]
                   "fortinet" "fortios" []) in
  get_devices_by_group d' "cisco" =
    (get_devices_by_group default_inventory_dir "cisco" ++
     (if bool_decide ("cisco" ∈ ["firewalls"; "cisco"]) then ["fw-01"] else []))%list /\
  (In (IStr "cisco") (get_device_groups (fun l => inr l) d') <->
   In (IStr "cisco") (get_device_groups (fun l => inr l) default_inventory_dir) \/
   In "cisco" ["firewalls"; "cisco"]).
Proof.
  apply (add_device_then_group_queries (fun l => inr l) default_inventory_dir default_hosts);
    [reflexivity | discriminate | discriminate | reflexivity | reflexivity | reflexivity].
Defined.

Lemma mixed_groups_empty_device_groups_witness :
  let mixed := {| he_hostname := Some "10.0.0.9"; he_groups := GItems [IStr "core"; IOther "1"];
                  he_data := None; he_other := [] |} in
  get_device_groups (fun l => inr l) (inventory_dir_of
     (Some (YMapping [("rtr-01", Some rtr_01); ("rtr-02", Some mixed)])) None true) = [] /\
  (forallb (fun p => host_groups_searchable (snd p))
     [("rtr-01", Some rtr_01); ("rtr-02", Some mixed)] = true ->
   In "rtr-02" (get_devices_by_group (inventory_dir_of
     (Some (YMapping [("rtr-01", Some rtr_01); ("rtr-02", Some mixed)])) None true) "core")).
Proof.
  intros mixed.
  apply (mixed_groups_empty_device_groups _ _ [("rtr-01", Some rtr_01); ("rtr-02", Some mixed)]
           "rtr-02" mixed [IStr "core"; IOther "1"] "core"
           "rtr-02" mixed [IStr "core"; IOther "1"] "1");
    [reflexivity | discriminate | discriminate | reflexivity | right; left; reflexivity
    | reflexivity | left; reflexivity | right; left; reflexivity | reflexivity
    | right; left; reflexivity].
Defined.

Lemma save_then_validation_history_witness :
  In {| hist_timestamp := "20260101_000000"; hist_results := "[]" |}
     (get_validation_history string (fun s => inr s)
        (save_validation_results (fun _ => true) (fun _ => "[]") ∅ "20260101_000000" [])).
Proof.
  apply save_then_validation_history; [reflexivity | reflexivity | reflexivity |].
  intros f e H. by rewrite lookup_empty in H.
Defined.

Lemma validation_history_all_or_nothing_witness :
  get_validation_history string (fun s => inr s)
    (<["validation_results_20260101_000000.json" := Unreadable]>
      (<["validation_results_20250101_000000.json" := Readable "[]"]> ∅)) = [].
Proof.
  apply (validation_history_all_or_nothing _ _ _ "validation_results_20260101_000000.json");
    [reflexivity | left; reflexivity].
Defined.
